(** * TTS-Audio-Suite: the ComfyUI model wrapper and the TTS model manager

    A shallow embedding of [utils/models/comfyui_model_wrapper.py]:
    the handle class [ComfyUIModelWrapper], the cache class
    [ComfyUITTSModelManager] and the module-level invalidation flag.

    Python objects live in two stores indexed by allocation number (object
    identity): one for the wrapped model instances, one for the wrappers.
    The manager's [_model_cache] is a Python [dict]: an insertion-ordered
    association list with unique keys, holding references to wrappers. *)

From Stdlib Require Import String List ZArith QArith Bool Arith Lia.
From Stdlib Require Import DecimalString.
Import ListNotations.
Close Scope Q_scope.
Open Scope nat_scope.
Open Scope string_scope.

(** ** Python dictionaries keyed by [str] *)

Module PyDict.
Section Dict.
Context {V : Type}.

Definition t := list (string * V).

Definition empty : t := [].

(** [d.get(k)] *)
Fixpoint get (k : string) (d : t) : option V :=
  match d with
  | [] => None
  | (k', v) :: r => if String.eqb k' k then Some v else get k r
  end.

(** [k in d] *)
Definition contains (k : string) (d : t) : bool :=
  match get k d with Some _ => true | None => false end.

(** [d[k] = v]: an existing key keeps its position, a new key goes last. *)
Fixpoint set (k : string) (v : V) (d : t) : t :=
  match d with
  | [] => [(k, v)]
  | (k', v') :: r =>
      if String.eqb k' k then (k', v) :: r else (k', v') :: set k v r
  end.

(** The dictionary left by [d.pop(k)]. *)
Fixpoint remove (k : string) (d : t) : t :=
  match d with
  | [] => []
  | (k', v') :: r =>
      if String.eqb k' k then remove k r else (k', v') :: remove k r
  end.

Definition keys (d : t) : list string := map fst d.
Definition values (d : t) : list V := map snd d.
End Dict.
Arguments t : clear implicits.
End PyDict.

(** ** The wrapped model instance, as far as the wrapper probes it

    The wrapper never looks inside a model beyond [hasattr] probes and a few
    calls; an instance is described by what those probes and calls yield.
    Where the tensors of an instance are is not part of the description: a
    call of [to] is recorded by its outcome (it returns or it raises), and
    the wrapper's own record of the move is in its [current_device] and
    [_is_loaded_on_gpu]. The only attribute of an instance that the code
    writes, [cuda_graphs_initialized], is a field. *)

(** What [for param in model.parameters(): nelement() * element_size()] meets:
    the parameters as pairs (element count, element size), or an exception
    (the attribute is not callable, a parameter lacks [nelement], ...). *)
Inductive Parameters :=
| params (ps : list (Z * Z))
| params_raise.

(** A value of the instance's [__dict__]: its [to] attribute (when present:
    does [to(device)] raise?) and its [parameters] attribute. *)
Record Component := {
  comp_to : option (string -> bool);
  comp_parameters : option Parameters
}.

Record Instance := {
  (** [hasattr(model, 'to')]; applied to a device: does the call raise? *)
  inst_to : option (string -> bool);
  (** [hasattr(model, 'parameters')] *)
  inst_parameters : option Parameters;
  (** [hasattr(model, '__dict__')] and its items *)
  inst_dict : option (list (string * Component));
  (** [model.engine.cuda_graphs_initialized], when both attributes exist *)
  cuda_graphs_initialized : option bool;
  (** [weakref.ref(model)] returns; it raises [TypeError] for an object of
      a type without weak references (a class with [__slots__], ...) *)
  inst_weakref : bool
}.

(** Results of calls that may raise. *)
Inductive Result (A : Type) :=
| Ok (a : A)
| Raise.
Arguments Ok {A} a.
Arguments Raise {A}.

Definition GiB : Z := 1024 * 1024 * 1024.

(** [ComfyUIModelWrapper._estimate_model_memory] *)
Definition _estimate_model_memory (p : option Parameters) : Result Z :=
  match p with
  | None => Ok 0%Z
  | Some (params ps) =>
      Ok (fold_left (fun total_size pr => (total_size + fst pr * snd pr)%Z) ps 0%Z)
  | Some params_raise => Raise
  end.

(** The loop of [calculate_model_memory] over [model.__dict__.values()]. *)
Fixpoint sum_components (attrs : list (string * Component)) (total_size : Z)
  : Result Z :=
  match attrs with
  | [] => Ok total_size
  | (_, attr_value) :: r =>
      match comp_parameters attr_value with
      | Some p =>
          match _estimate_model_memory (Some p) with
          | Ok n => sum_components r (total_size + n)%Z
          | Raise => Raise
          end
      | None => sum_components r total_size
      end
  end.

(** [ComfyUIModelWrapper.calculate_model_memory]; the argument is [None] for
    Python's [None], which has neither [parameters] nor [__dict__]. *)
Definition calculate_model_memory (model : option Instance) : Result Z :=
  match model with
  | None => Ok GiB
  | Some m =>
      match inst_parameters m with
      | Some p => _estimate_model_memory (Some p)
      | None =>
          match inst_dict m with
          | Some attrs => sum_components attrs 0%Z
          | None => Ok GiB
          end
      end
  end.

(** ** Process environment: what the imports and torch report *)

Record Env := {
  (** [import comfy.model_management] succeeded *)
  COMFYUI_AVAILABLE : bool;
  (** [torch.cuda.is_available()] *)
  cuda_is_available : bool;
  (** [torch.cuda.current_device()] *)
  cuda_current_device : nat;
  (** [torch.device(name)] returns; it raises [RuntimeError] for a string
      that names no device type (['offload'], the empty string, ...) *)
  torch_device_accepts : string -> bool
}.

(** ** ModelInfo and ComfyUIModelWrapper *)

(** Reference to a model instance: index in the store of instances. *)
Definition oid := nat.
(** Reference to a wrapper: index in the store of wrappers. *)
Definition wid := nat.

(** Devices are written as strings; a [torch.device] is written by its
    string form ([torch.device("cuda", 0)] is ["cuda:0"]). *)
Definition torch_device (type : string) (index : option nat) : string :=
  match index with
  | Some n => type ++ ":" ++ NilZero.string_of_uint (Nat.to_uint n)
  | None => type
  end.

Module ModelInfo.
Record t := {
  model : option oid;
  model_type : string;
  engine : string;
  device : string;
  memory_size : Z;
  load_device : string
}.
End ModelInfo.

(** The attributes of a wrapper that some method reads or writes. The
    constant ComfyUI compatibility attributes ([model_patches_models],
    [parent], [model_options], ...) are never read by this module. *)
Record Wrapper := {
  w_model : option oid;
  model_info : ModelInfo.t;
  w_load_device : string;
  current_device : string;
  _memory_size : Z;
  w_device : string;
  offload_device : string;
  _is_loaded_on_gpu : bool;
  _is_valid_for_reuse : bool
}.

(** [x in ['cpu', 'offload']] *)
Definition in_cpu_offload (x : string) : bool :=
  String.eqb x "cpu" || String.eqb x "offload".

(** [ComfyUIModelWrapper.__init__], for the model object [referent] whose
    reference is [m] ([None] for Python's [None]). The constructor raises
    when [torch.device] rejects the device name (line 87) and when the
    model cannot be weakly referenced (line 116). *)
Definition __init__ (env : Env) (m : option oid) (referent : option Instance)
    (info : ModelInfo.t) : Result Wrapper :=
  let device_name := ModelInfo.device info in
  let device_name :=
    if String.eqb device_name "auto"
    then (if cuda_is_available env then "cuda" else "cpu")
    else device_name in
  let self_device :=
    if String.eqb device_name "cuda"
    then Ok (torch_device "cuda"
               (Some (if cuda_is_available env then cuda_current_device env else 0)))
    else if torch_device_accepts env device_name
         then Ok (torch_device device_name None)
         else Raise in
  match self_device with
  | Raise => Raise
  | Ok self_device =>
      let self :=
        {| w_model := m;
           model_info := info;
           w_load_device := self_device;
           current_device := ModelInfo.device info;
           _memory_size := ModelInfo.memory_size info;
           w_device := self_device;
           offload_device := "cpu";
           _is_loaded_on_gpu := negb (in_cpu_offload (ModelInfo.device info));
           _is_valid_for_reuse := true |} in
      match referent with
      | Some model => if inst_weakref model then Ok self else Raise
      | None => Ok self
      end
  end.

Definition set_current_device (d : string) (w : Wrapper) : Wrapper :=
  {| w_model := w_model w; model_info := model_info w;
     w_load_device := w_load_device w; current_device := d;
     _memory_size := _memory_size w; w_device := w_device w;
     offload_device := offload_device w;
     _is_loaded_on_gpu := _is_loaded_on_gpu w;
     _is_valid_for_reuse := _is_valid_for_reuse w |}.

Definition set_is_loaded_on_gpu (b : bool) (w : Wrapper) : Wrapper :=
  {| w_model := w_model w; model_info := model_info w;
     w_load_device := w_load_device w; current_device := current_device w;
     _memory_size := _memory_size w; w_device := w_device w;
     offload_device := offload_device w;
     _is_loaded_on_gpu := b;
     _is_valid_for_reuse := _is_valid_for_reuse w |}.

Definition set_is_valid_for_reuse (b : bool) (w : Wrapper) : Wrapper :=
  {| w_model := w_model w; model_info := model_info w;
     w_load_device := w_load_device w; current_device := current_device w;
     _memory_size := _memory_size w; w_device := w_device w;
     offload_device := offload_device w;
     _is_loaded_on_gpu := _is_loaded_on_gpu w;
     _is_valid_for_reuse := b |}.

(** The wrapper's own record of where it is: the mark [_is_loaded_on_gpu]
    read as two states. The wrapper has no attribute for quarantine; the
    residency of a handle, cache placement included, is [handle_residency]
    below. *)
Inductive Residency := Resident | Evicted.

Definition residency (w : Wrapper) : Residency :=
  if _is_loaded_on_gpu w then Resident else Evicted.

(** ** Program state *)

Record State := {
  (** [tts_model_manager._model_cache] *)
  _model_cache : PyDict.t wid;
  (** every wrapper object created so far, by identity *)
  heap : wid -> Wrapper;
  next_wrapper : wid;
  (** every model instance a factory returned so far, by identity *)
  objects : oid -> Instance;
  next_object : oid;
  (** the module-level [_global_cache_invalidation_flag] *)
  _global_cache_invalidation_flag : Q;
  (** ghost: how many times a factory callable was invoked *)
  factory_calls : nat
}.

Definition set_cache (c : PyDict.t wid) (s : State) : State :=
  {| _model_cache := c; heap := heap s; next_wrapper := next_wrapper s;
     objects := objects s; next_object := next_object s;
     _global_cache_invalidation_flag := _global_cache_invalidation_flag s;
     factory_calls := factory_calls s |}.

Definition upd_wrapper (i : wid) (f : Wrapper -> Wrapper) (s : State) : State :=
  {| _model_cache := _model_cache s;
     heap := fun j => if Nat.eqb j i then f (heap s j) else heap s j;
     next_wrapper := next_wrapper s;
     objects := objects s; next_object := next_object s;
     _global_cache_invalidation_flag := _global_cache_invalidation_flag s;
     factory_calls := factory_calls s |}.

Definition upd_object (o : oid) (f : Instance -> Instance) (s : State) : State :=
  {| _model_cache := _model_cache s; heap := heap s;
     next_wrapper := next_wrapper s;
     objects := fun j => if Nat.eqb j o then f (objects s j) else objects s j;
     next_object := next_object s;
     _global_cache_invalidation_flag := _global_cache_invalidation_flag s;
     factory_calls := factory_calls s |}.

Definition set_flag (now : Q) (s : State) : State :=
  {| _model_cache := _model_cache s; heap := heap s;
     next_wrapper := next_wrapper s;
     objects := objects s; next_object := next_object s;
     _global_cache_invalidation_flag := now;
     factory_calls := factory_calls s |}.

(** [is_engine_cache_valid] *)
Definition is_engine_cache_valid (cache_timestamp : Q) (s : State) : bool :=
  if Qlt_le_dec (_global_cache_invalidation_flag s) cache_timestamp
  then true else false.

(** The instance a wrapper's weak reference yields: the wrapper itself holds
    [self.model], so the referent is alive whenever it is not [None]. *)
Definition _model_ref (s : State) (w : Wrapper) : option Instance :=
  option_map (objects s) (w_model w).

(** ** Methods of ComfyUIModelWrapper

    A method takes the wrapper's reference [self] and the state and returns
    its result with the new state. Printing is left out. *)

Definition loaded_size (self : wid) (s : State) : Z * State :=
  let w := heap s self in
  let size := if _is_loaded_on_gpu w then _memory_size w else 0%Z in
  (size, s).

Definition model_size (self : wid) (s : State) : Z * State :=
  (_memory_size (heap s self), s).

Definition model_offloaded_memory (self : wid) (s : State) : Z * State :=
  let '(a, s) := model_size self s in
  let '(b, s) := loaded_size self s in
  ((a - b)%Z, s).

Definition current_loaded_device (self : wid) (s : State) : string * State :=
  (current_device (heap s self), s).

(** The loop of [partially_unload] over [model.__dict__.items()]: a
    component is moved and counted when it has both [to] and [parameters];
    an exception from [to] or from the estimate skips the component. *)
Fixpoint unload_components (attrs : list (string * Component)) (freed_memory : Z)
  : Z :=
  match attrs with
  | [] => freed_memory
  | (_, attr_value) :: r =>
      match comp_to attr_value, comp_parameters attr_value with
      | Some to_raises, Some p =>
          if to_raises "cpu" then unload_components r freed_memory
          else match _estimate_model_memory (Some p) with
               | Ok n => unload_components r (freed_memory + n)%Z
               | Raise => unload_components r freed_memory
               end
      | _, _ => unload_components r freed_memory
      end
  end.

(** [partially_unload]. [_clear_cuda_graphs] only inspects and prints, inside
    its own [try]; the garbage collection at the end touches no attribute. *)
Definition partially_unload (self : wid) (device : string) (memory_to_free : Z)
    (s : State) : Z * State :=
  let w := heap s self in
  if negb (_is_loaded_on_gpu w) then (0%Z, s)
  else
    match _model_ref s w with
    | None => (0%Z, s)
    | Some m =>
        match inst_to m with
        | Some to_raises =>
            if to_raises "cpu" then
              (* except: still mark as unloaded *)
              let s := upd_wrapper self (set_current_device "cpu") s in
              let s := upd_wrapper self (set_is_loaded_on_gpu false) s in
              (_memory_size w, s)
            else
              let freed_memory := _memory_size w in
              let s := upd_wrapper self (set_current_device "cpu") s in
              let s := upd_wrapper self (set_is_loaded_on_gpu false) s in
              (freed_memory, s)
        | None =>
            match inst_dict m with
            | Some attrs =>
                let freed_memory := unload_components attrs 0%Z in
                if (freed_memory >? 0)%Z then
                  let s := upd_wrapper self (set_current_device "cpu") s in
                  let s := upd_wrapper self (set_is_loaded_on_gpu false) s in
                  (freed_memory, s)
                else (freed_memory, s)
            | None => (0%Z, s)
            end
        end
    end.

(** [model_unload] *)
Definition model_unload (self : wid) (memory_to_free : option Z)
    (unpatch_weights : bool) (s : State) : bool * State :=
  let full :=
    let '(freed, s') := partially_unload self "cpu" (_memory_size (heap s self)) s in
    ((freed >? 0)%Z, s') in
  match memory_to_free with
  | Some m =>
      if (m <? fst (loaded_size self s))%Z then
        let '(freed, s') := partially_unload self "cpu" m s in
        ((freed >=? m)%Z, s')
      else full
  | None => full
  end.

(** [model_load]; [device or self.load_device] takes [load_device] for
    [None] and for the empty string. *)
Definition model_load (self : wid) (device : option string) (s : State) : State :=
  let w := heap s self in
  if _is_loaded_on_gpu w then s
  else
    let target_device :=
      match device with
      | Some d => if String.eqb d "" then w_load_device w else d
      | None => w_load_device w
      end in
    match _model_ref s w with
    | None => s
    | Some m =>
        match inst_to m with
        | Some to_raises =>
            if to_raises target_device then s
            else
              let s := upd_wrapper self (set_current_device target_device) s in
              upd_wrapper self (set_is_loaded_on_gpu true) s
        | None =>
            match inst_dict m with
            | Some _ =>
                let s := upd_wrapper self (set_current_device target_device) s in
                upd_wrapper self (set_is_loaded_on_gpu true) s
            | None => s
            end
        end
    end.

(** [_clear_node_engine_caches]; [now] is what [time.time()] returns. *)
Definition _clear_node_engine_caches (now : Q) (s : State) : State :=
  set_flag now s.

(** [detach] *)
Definition detach (self : wid) (unpatch_all : bool) (now : Q) (s : State) : State :=
  let '(freed, s) := partially_unload self "cpu" (_memory_size (heap s self)) s in
  let s := upd_wrapper self (set_is_valid_for_reuse false) s in
  _clear_node_engine_caches now s.

(** [partially_load] *)
Definition partially_load (self : wid) (device : string) (extra_memory : Z)
    (force_patch_weights : bool) (s : State) : Z * State :=
  let w := heap s self in
  if negb (String.eqb device "cpu") && negb (_is_loaded_on_gpu w) then
    let s := model_load self (Some device) s in
    (_memory_size (heap s self), s)
  else (0%Z, s).

(** The class body binds [is_clone] twice. A class body is executed top to
    bottom into a namespace dictionary, so we replay the two [def]s. *)
Definition is_clone_def_341 (self other : Wrapper) : bool :=
  String.eqb (ModelInfo.model_type (model_info self))
      (ModelInfo.model_type (model_info other))
  && String.eqb (ModelInfo.engine (model_info self))
        (ModelInfo.engine (model_info other)).

Definition is_clone_def_380 (self other : Wrapper) : bool := false.

Definition class_namespace : PyDict.t (Wrapper -> Wrapper -> bool) :=
  PyDict.set "is_clone" is_clone_def_380
    (PyDict.set "is_clone" is_clone_def_341 PyDict.empty).

(** [self.is_clone(other)]: attribute lookup in the class namespace. *)
Definition is_clone (self other : wid) (s : State) : bool * State :=
  match PyDict.get "is_clone" class_namespace with
  | Some method => (method (heap s self) (heap s other), s)
  | None => (false, s)
  end.

(** ** What the callers and the host supply *)

(** A model factory, applied to [factory_kwargs['device']]: it returns a new
    instance (or Python's [None]) or raises. *)
Inductive FactoryOutcome :=
| returns (m : option Instance)
| factory_raises.

Definition Factory := string -> FactoryOutcome.

(** A call of a wrapper method, by the host or by whoever holds the handle.
    [call_detach] carries the reading of [time.time()] taken in the call. *)
Inductive HandleCall :=
| call_loaded_size
| call_model_size
| call_model_offloaded_memory
| call_current_loaded_device
| call_partially_unload (device : string) (memory_to_free : Z)
| call_model_unload (memory_to_free : option Z) (unpatch_weights : bool)
| call_model_load (device : option string)
| call_is_clone (other : wid)
| call_detach (unpatch_all : bool) (now : Q)
| call_partially_load (device : string) (extra_memory : Z)
    (force_patch_weights : bool).

Definition run_call (self : wid) (c : HandleCall) (s : State) : State :=
  match c with
  | call_loaded_size => snd (loaded_size self s)
  | call_model_size => snd (model_size self s)
  | call_model_offloaded_memory => snd (model_offloaded_memory self s)
  | call_current_loaded_device => snd (current_loaded_device self s)
  | call_partially_unload device memory_to_free =>
      snd (partially_unload self device memory_to_free s)
  | call_model_unload memory_to_free unpatch_weights =>
      snd (model_unload self memory_to_free unpatch_weights s)
  | call_model_load device => model_load self device s
  | call_is_clone other => snd (is_clone self other s)
  | call_detach unpatch_all now => detach self unpatch_all now s
  | call_partially_load device extra_memory force_patch_weights =>
      snd (partially_load self device extra_memory force_patch_weights s)
  end.

Definition run_calls (calls : list (wid * HandleCall)) (s : State) : State :=
  fold_left (fun s c => run_call (fst c) (snd c) s) calls s.

(** What [model_management.free_memory(3 GiB, torch_device)] does while
    [load_model] waits: the capability is missing, or the host calls methods
    of handles it tracks and then returns, or it does so and then raises
    (also: [get_torch_device] raises before anything is called). *)
Inductive FreeMemory :=
| fm_unavailable
| fm_returns (calls : list (wid * HandleCall))
| fm_raises (calls : list (wid * HandleCall)).

(** ** ComfyUITTSModelManager *)

Definition shadow_key (model_key : string) : string := "_shadow_" ++ model_key.

Definition set_cuda_graphs_initialized (b : bool) (m : Instance) : Instance :=
  {| inst_to := inst_to m; inst_parameters := inst_parameters m;
     inst_dict := inst_dict m; cuda_graphs_initialized := Some b;
     inst_weakref := inst_weakref m |}.

(** [if hasattr(wrapper.model, 'engine') and
        hasattr(wrapper.model.engine, 'cuda_graphs_initialized'):
      wrapper.model.engine.cuda_graphs_initialized = False] *)
Definition reset_cuda_graph_state (wrapper : wid) (s : State) : State :=
  match w_model (heap s wrapper) with
  | Some o =>
      match cuda_graphs_initialized (objects s o) with
      | Some _ => upd_object o (set_cuda_graphs_initialized false) s
      | None => s
      end
  | None => s
  end.

(** [get_model] *)
Definition get_model (model_key : string) (s : State) : option wid * State :=
  (PyDict.get model_key (_model_cache s), s).

(** [remove_model]. The host's own list [current_loaded_models] is the
    host's state; nothing here reads it back. *)
Definition remove_model (model_key : string) (s : State) : bool * State :=
  match PyDict.get model_key (_model_cache s) with
  | Some wrapper =>
      if String.eqb (ModelInfo.engine (model_info (heap s wrapper))) "higgs_audio"
      then
        let shadow := shadow_key model_key in
        let s := set_cache (PyDict.remove model_key (_model_cache s)) s in
        let s := set_cache (PyDict.set shadow wrapper (_model_cache s)) s in
        (true, s)
      else
        let s := set_cache (PyDict.remove model_key (_model_cache s)) s in
        let s := snd (model_unload wrapper None true s) in
        (true, s)
  | None => (false, s)
  end.

Definition remove_models (keys : list string) (s : State) : State :=
  fold_left (fun s key => snd (remove_model key s)) keys s.

(** Python truthiness of an optional string filter. *)
Definition truthy (x : option string) : option string :=
  match x with
  | Some v => if String.eqb v "" then None else Some v
  | None => None
  end.

Definition should_remove (model_type engine : option string) (w : Wrapper) : bool :=
  let should_remove := true in
  let should_remove :=
    match truthy model_type with
    | Some t =>
        if negb (String.eqb (ModelInfo.model_type (model_info w)) t)
        then false else should_remove
    | None => should_remove
    end in
  match truthy engine with
  | Some e =>
      if negb (String.eqb (ModelInfo.engine (model_info w)) e)
      then false else should_remove
  | None => should_remove
  end.

(** [clear_cache] *)
Definition clear_cache (model_type engine : option string) (s : State) : State :=
  let keys_to_remove :=
    PyDict.keys
      (filter (fun kw => should_remove model_type engine (heap s (snd kw)))
         (_model_cache s)) in
  remove_models keys_to_remove s.

Record Stats := {
  total_models : nat;
  total_memory_mb : Z;
  by_type : PyDict.t nat;
  by_engine : PyDict.t nat;
  comfyui_integration : bool
}.

(** [d[k] = d.get(k, 0) + 1] *)
Definition count_up (k : string) (d : PyDict.t nat) : PyDict.t nat :=
  PyDict.set k (match PyDict.get k d with Some n => n | None => 0 end + 1) d.

(** [sum(w.loaded_size() for w in self._model_cache.values())] *)
Definition total_memory (s : State) : Z :=
  fold_left (fun acc w => (acc + fst (loaded_size w s))%Z)
    (PyDict.values (_model_cache s)) 0%Z.

(** [get_stats] *)
Definition get_stats (env : Env) (s : State) : Stats * State :=
  let ws := PyDict.values (_model_cache s) in
  ({| total_models := length (_model_cache s);
      total_memory_mb := (total_memory s / 1024 / 1024)%Z;
      by_type :=
        fold_left (fun d w => count_up (ModelInfo.model_type (model_info (heap s w))) d)
          ws PyDict.empty;
      by_engine :=
        fold_left (fun d w => count_up (ModelInfo.engine (model_info (heap s w))) d)
          ws PyDict.empty;
      comfyui_integration := COMFYUI_AVAILABLE env |}, s).

(** The in-place reinitialisation of a Higgs Audio wrapper (lines 497-508
    and 527-538). Nothing in its [try] block raises here: [model_load]
    catches its own exceptions and the flag is a plain attribute, so the
    [except] clauses are not reached. *)
Definition reinitialize_in_place (wrapper : wid) (device : string) (s : State)
  : State :=
  let s := reset_cuda_graph_state wrapper s in
  let s := model_load wrapper (Some device) s in
  upd_wrapper wrapper (set_is_valid_for_reuse true) s.

(** The manual cleanup of lines 559-573: every key whose wrapper is of
    another engine and of type ["tts"] is collected, then removed. *)
Definition clear_other_engines (model_type engine : string) (s : State) : State :=
  if String.eqb model_type "tts" && negb (String.eqb engine "") then
    let cached_models := PyDict.keys (_model_cache s) in
    let models_to_clear :=
      filter (fun cache_key =>
                match PyDict.get cache_key (_model_cache s) with
                | Some i =>
                    let wrapper := heap s i in
                    negb (String.eqb (ModelInfo.engine (model_info wrapper)) engine)
                    && String.eqb (ModelInfo.model_type (model_info wrapper)) "tts"
                | None => false
                end)
        cached_models in
    remove_models models_to_clear s
  else s.

(** Lines 546-577; an exception anywhere in the block ends the block. *)
Definition free_memory_before_load (env : Env) (model_type engine device : string)
    (host : FreeMemory) (s : State) : State :=
  if COMFYUI_AVAILABLE env && negb (String.eqb device "cpu") then
    match host with
    | fm_unavailable => clear_other_engines model_type engine s
    | fm_returns calls => clear_other_engines model_type engine (run_calls calls s)
    | fm_raises calls => run_calls calls s
    end
  else s.

Definition count_factory_call (s : State) : State :=
  {| _model_cache := _model_cache s; heap := heap s;
     next_wrapper := next_wrapper s;
     objects := objects s; next_object := next_object s;
     _global_cache_invalidation_flag := _global_cache_invalidation_flag s;
     factory_calls := S (factory_calls s) |}.

(** The instance a factory returned enters the store of instances. *)
Definition new_object (m : Instance) (s : State) : oid * State :=
  (next_object s,
   {| _model_cache := _model_cache s; heap := heap s;
      next_wrapper := next_wrapper s;
      objects := fun j => if Nat.eqb j (next_object s) then m else objects s j;
      next_object := S (next_object s);
      _global_cache_invalidation_flag := _global_cache_invalidation_flag s;
      factory_calls := factory_calls s |}).

Definition new_wrapper (w : Wrapper) (s : State) : wid * State :=
  (next_wrapper s,
   {| _model_cache := _model_cache s;
      heap := fun j => if Nat.eqb j (next_wrapper s) then w else heap s j;
      next_wrapper := S (next_wrapper s);
      objects := objects s; next_object := next_object s;
      _global_cache_invalidation_flag := _global_cache_invalidation_flag s;
      factory_calls := factory_calls s |}).

(** Lines 545-639: make room, call the factory, wrap and cache the result.
    The [gc.collect()] before a Higgs Audio model is created on CUDA touches
    no attribute; the registration with the host (lines 611-637) writes to
    the host's list only and swallows its own exceptions. *)
Definition create_model (env : Env) (model_factory_func : Factory)
    (model_key model_type engine device : string) (host : FreeMemory)
    (s : State) : Result wid * State :=
  let s := free_memory_before_load env model_type engine device host s in
  let s := count_factory_call s in
  match model_factory_func device with
  | factory_raises => (Raise, s)
  | returns m =>
      let '(mref, s) :=
        match m with
        | Some inst => let '(o, s) := new_object inst s in (Some o, s)
        | None => (None, s)
        end in
      match calculate_model_memory m with
      | Raise => (Raise, s)
      | Ok memory_size =>
          let model_info :=
            {| ModelInfo.model := mref;
               ModelInfo.model_type := model_type;
               ModelInfo.engine := engine;
               ModelInfo.device := device;
               ModelInfo.memory_size := memory_size;
               ModelInfo.load_device := device |} in
          match __init__ env mref m model_info with
          | Raise => (Raise, s)
          | Ok self =>
              let '(wrapper, s) := new_wrapper self s in
              let s := set_cache (PyDict.set model_key wrapper (_model_cache s)) s in
              (Ok wrapper, s)
          end
      end
  end.

(** Lines 473-483: the wrapper found in shadow storage goes back under its
    key, with the CUDA graph state reset and marked valid. *)
Definition resurrect (model_key : string) (wrapper : wid) (s : State) : State :=
  let s := set_cache (PyDict.remove (shadow_key model_key) (_model_cache s)) s in
  let s := reset_cuda_graph_state wrapper s in
  let s := set_cache (PyDict.set model_key wrapper (_model_cache s)) s in
  upd_wrapper wrapper (set_is_valid_for_reuse true) s.

(** [load_model] *)
Definition load_model (env : Env) (model_factory_func : Factory)
    (model_key model_type engine device : string) (force_reload : bool)
    (host : FreeMemory) (s : State) : Result wid * State :=
  let shadow := shadow_key model_key in
  match (if String.eqb engine "higgs_audio"
         then PyDict.get shadow (_model_cache s) else None) with
  | Some wrapper => (Ok wrapper, resurrect model_key wrapper s)
  | None =>
      match PyDict.get model_key (_model_cache s) with
      | Some wrapper =>
          if negb force_reload then
            let is_valid := _is_valid_for_reuse (heap s wrapper) in
            if negb is_valid then
              if String.eqb engine "higgs_audio" then
                (Ok wrapper, reinitialize_in_place wrapper device s)
              else
                let s := snd (remove_model model_key s) in
                create_model env model_factory_func model_key model_type engine
                  device host s
            else
              let s :=
                if negb (String.eqb (current_device (heap s wrapper)) device)
                   && negb (String.eqb device "auto")
                then model_load wrapper (Some device) s else s in
              (Ok wrapper, s)
          else
            if String.eqb engine "higgs_audio" then
              (Ok wrapper, reinitialize_in_place wrapper device s)
            else
              let s := snd (remove_model model_key s) in
              create_model env model_factory_func model_key model_type engine
                device host s
      | None =>
          create_model env model_factory_func model_key model_type engine
            device host s
      end
  end.

(** ** Runs of the program *)

Inductive Op :=
| op_load_model (model_factory_func : Factory)
    (model_key model_type engine device : string) (force_reload : bool)
    (host : FreeMemory)
| op_get_model (model_key : string)
| op_remove_model (model_key : string)
| op_clear_cache (model_type engine : option string)
| op_get_stats
| op_call (self : wid) (c : HandleCall).

Definition run_op (env : Env) (op : Op) (s : State) : State :=
  match op with
  | op_load_model f model_key model_type engine device force_reload host =>
      snd (load_model env f model_key model_type engine device force_reload host s)
  | op_get_model model_key => snd (get_model model_key s)
  | op_remove_model model_key => snd (remove_model model_key s)
  | op_clear_cache model_type engine => clear_cache model_type engine s
  | op_get_stats => snd (get_stats env s)
  | op_call self c => run_call self c s
  end.

Definition run (env : Env) (ops : list Op) (s : State) : State :=
  fold_left (fun s op => run_op env op s) ops s.

(** A wrapper slot before any wrapper is created there. *)
Definition no_wrapper : Wrapper :=
  {| w_model := None;
     model_info :=
       {| ModelInfo.model := None; ModelInfo.model_type := "";
          ModelInfo.engine := ""; ModelInfo.device := "";
          ModelInfo.memory_size := 0%Z; ModelInfo.load_device := "" |};
     w_load_device := ""; current_device := ""; _memory_size := 0%Z;
     w_device := ""; offload_device := "cpu";
     _is_loaded_on_gpu := false; _is_valid_for_reuse := true |}.

Definition no_instance : Instance :=
  {| inst_to := None; inst_parameters := None; inst_dict := None;
     cuda_graphs_initialized := None; inst_weakref := true |}.

(** The state after the module is imported: an empty cache, flag [0.0]. *)
Definition initial_state : State :=
  {| _model_cache := PyDict.empty;
     heap := fun _ => no_wrapper;
     next_wrapper := 0;
     objects := fun _ => no_instance;
     next_object := 0;
     _global_cache_invalidation_flag := 0%Q;
     factory_calls := 0 |}.

(** ** Sample inputs *)

Module Sample.

(** Device strings of the samples that [torch.device] accepts; it rejects
    ['offload'] and the empty string. *)
Definition torch_accepts (name : string) : bool :=
  existsb (String.eqb name) ["cpu"; "cuda"; "cuda:0"; "cuda:1"; "mps"].

(** A process without ComfyUI and without CUDA, and one with both. *)
Definition standalone : Env :=
  {| COMFYUI_AVAILABLE := false; cuda_is_available := false;
     cuda_current_device := 0; torch_device_accepts := torch_accepts |}.

Definition hosted : Env :=
  {| COMFYUI_AVAILABLE := true; cuda_is_available := true;
     cuda_current_device := 0; torch_device_accepts := torch_accepts |}.

(** A torch module: [to], [parameters] (1000 float32 values), [__dict__]. *)
Definition torch_module : Instance :=
  {| inst_to := Some (fun _ => false);
     inst_parameters := Some (params [(1000, 4)%Z]);
     inst_dict := Some [];
     cuda_graphs_initialized := None; inst_weakref := true |}.

(** A Higgs Audio engine of 2 GiB whose CUDA graphs are initialised. *)
Definition higgs_engine : Instance :=
  {| inst_to := Some (fun _ => false);
     inst_parameters := Some (params [(536870912, 4)%Z]);
     inst_dict := Some [];
     cuda_graphs_initialized := Some true; inst_weakref := true |}.

(** A module whose [to] raises whatever the device. *)
Definition stubborn_module : Instance :=
  {| inst_to := Some (fun _ => true);
     inst_parameters := Some (params [(1000, 4)%Z]);
     inst_dict := Some [];
     cuda_graphs_initialized := None; inst_weakref := true |}.

(** An ordinary Python object: a [__dict__] with a configuration value,
    no [parameters] anywhere, no [to]. *)
Definition plain_object : Instance :=
  {| inst_to := None;
     inst_parameters := None;
     inst_dict := Some [("config", {| comp_to := None; comp_parameters := None |})];
     cuda_graphs_initialized := None; inst_weakref := true |}.

(** An object without [__dict__] (a class with [__slots__], which has no
    weak references either). *)
Definition slotted_object : Instance :=
  {| inst_to := None; inst_parameters := None; inst_dict := None;
     cuda_graphs_initialized := None; inst_weakref := false |}.

(** An object whose [parameters] attribute cannot be enumerated. *)
Definition hyperparameters_object : Instance :=
  {| inst_to := None;
     inst_parameters := Some params_raise;
     inst_dict := Some [];
     cuda_graphs_initialized := None; inst_weakref := true |}.

Definition factory_of (m : Instance) : Factory := fun _ => returns (Some m).

Definition load (m : Instance) (model_key engine device : string) : Op :=
  op_load_model (factory_of m) model_key "tts" engine device false fm_unavailable.

End Sample.

(** * Properties *)

(** ** Facts about dictionaries *)

Module PyDictFacts.
Import PyDict.
Section Facts.
Context {V : Type}.
Implicit Types (d : PyDict.t V) (k : string) (v : V).

Lemma get_set_same k v d : get k (set k v d) = Some v.
Proof.
  induction d as [|[k' v'] r IH]; simpl.
  - now rewrite String.eqb_refl.
  - destruct (String.eqb k' k) eqn:E; simpl; rewrite E; auto.
Qed.

Lemma get_set_other k k' v d : k' <> k -> get k' (set k v d) = get k' d.
Proof.
  intros Hne. induction d as [|[k0 v0] r IH]; simpl.
  - destruct (String.eqb_spec k k'); congruence.
  - destruct (String.eqb_spec k0 k) as [->|Hk]; simpl.
    + destruct (String.eqb_spec k k'); congruence.
    + destruct (String.eqb k0 k'); auto.
Qed.

Lemma get_remove_same k d : get k (remove k d) = None.
Proof.
  induction d as [|[k' v'] r IH]; simpl; auto.
  destruct (String.eqb k' k) eqn:E; simpl; try rewrite E; auto.
Qed.

Lemma get_remove_other k k' d : k' <> k -> get k' (remove k d) = get k' d.
Proof.
  intros Hne. induction d as [|[k0 v0] r IH]; simpl; auto.
  destruct (String.eqb_spec k0 k) as [->|Hk]; simpl.
  - destruct (String.eqb_spec k k'); congruence.
  - destruct (String.eqb k0 k'); auto.
Qed.

Lemma contains_get k d : contains k d = true <-> exists v, get k d = Some v.
Proof.
  unfold contains. destruct (get k d); split; intros H; eauto; try discriminate.
  destruct H; discriminate.
Qed.

Lemma contains_false k d : contains k d = false <-> get k d = None.
Proof. unfold contains. destruct (get k d); split; congruence. Qed.

Lemma contains_set_same k v d : contains k (set k v d) = true.
Proof. unfold contains. now rewrite get_set_same. Qed.

Lemma contains_set_other k k' v d :
  k' <> k -> contains k' (set k v d) = contains k' d.
Proof. intros. unfold contains. now rewrite get_set_other. Qed.

Lemma contains_remove_same k d : contains k (remove k d) = false.
Proof. unfold contains. now rewrite get_remove_same. Qed.

Lemma contains_remove_other k k' d :
  k' <> k -> contains k' (remove k d) = contains k' d.
Proof. intros. unfold contains. now rewrite get_remove_other. Qed.

Lemma get_remove_Some k k' d v : get k' (remove k d) = Some v -> get k' d = Some v.
Proof.
  destruct (string_dec k' k) as [->|Hne].
  - now rewrite get_remove_same.
  - now rewrite get_remove_other.
Qed.

Lemma get_In k d v : get k d = Some v -> In v (values d).
Proof.
  induction d as [|[k' v'] r IH]; simpl; try discriminate.
  destruct (String.eqb k' k); intros H; [left; congruence | right; auto].
Qed.

Lemma In_values_set k v x d : In x (values (set k v d)) -> x = v \/ In x (values d).
Proof.
  induction d as [|[k' v'] r IH]; simpl.
  - intros [H|[]]; auto.
  - destruct (String.eqb k' k); simpl; intros [H|H]; auto.
    destruct (IH H); auto.
Qed.

Lemma In_values_remove k x d : In x (values (remove k d)) -> In x (values d).
Proof.
  induction d as [|[k' v'] r IH]; simpl; auto.
  destruct (String.eqb k' k); simpl; intros H; auto.
  destruct H; auto.
Qed.
End Facts.
End PyDictFacts.
Import PyDictFacts.

(** ** What a method call can change *)

(** The attributes of a wrapper that are written once, in [__init__]. *)
Definition wrapper_frame (w w' : Wrapper) : Prop :=
  w_model w' = w_model w /\ model_info w' = model_info w
  /\ _memory_size w' = _memory_size w /\ w_load_device w' = w_load_device w.

(** A call of a wrapper method leaves the cache, both stores' extent and the
    instances alone, and rewrites no write-once attribute. *)
Definition handle_frame (s s' : State) : Prop :=
  _model_cache s' = _model_cache s
  /\ next_wrapper s' = next_wrapper s
  /\ objects s' = objects s
  /\ next_object s' = next_object s
  /\ factory_calls s' = factory_calls s
  /\ forall j, wrapper_frame (heap s j) (heap s' j).

Lemma wrapper_frame_refl w : wrapper_frame w w.
Proof. repeat split. Qed.

Lemma wrapper_frame_trans w1 w2 w3 :
  wrapper_frame w1 w2 -> wrapper_frame w2 w3 -> wrapper_frame w1 w3.
Proof.
  unfold wrapper_frame. intros (a & b & c & d) (a' & b' & c' & d').
  repeat split; congruence.
Qed.

Lemma handle_frame_refl s : handle_frame s s.
Proof. repeat split. Qed.

Lemma handle_frame_trans s1 s2 s3 :
  handle_frame s1 s2 -> handle_frame s2 s3 -> handle_frame s1 s3.
Proof.
  intros (a & b & c & d & e & f) (a' & b' & c' & d' & e' & f').
  repeat split; try congruence; destruct (f j), (f' j); intuition congruence.
Qed.

Lemma handle_frame_upd self f s s' :
  (forall w, wrapper_frame w (f w)) ->
  handle_frame s s' -> handle_frame s (upd_wrapper self f s').
Proof.
  intros Hf H. eapply handle_frame_trans; [exact H|].
  unfold handle_frame; simpl. repeat apply conj; auto.
  intros j. destruct (Nat.eqb j self); [apply Hf | apply wrapper_frame_refl].
Qed.

Lemma handle_frame_set_flag now s s' :
  handle_frame s s' -> handle_frame s (set_flag now s').
Proof. intros H. eapply handle_frame_trans; [exact H|]. repeat split. Qed.

Lemma frame_set_current_device d w : wrapper_frame w (set_current_device d w).
Proof. repeat split. Qed.

Lemma frame_set_is_loaded_on_gpu b w : wrapper_frame w (set_is_loaded_on_gpu b w).
Proof. repeat split. Qed.

Lemma frame_set_is_valid_for_reuse b w : wrapper_frame w (set_is_valid_for_reuse b w).
Proof. repeat split. Qed.

Create HintDb frame.
#[local] Hint Resolve handle_frame_refl handle_frame_upd handle_frame_set_flag
  frame_set_current_device frame_set_is_loaded_on_gpu
  frame_set_is_valid_for_reuse : frame.

Ltac frame_steps := eauto 8 with frame.

Lemma partially_unload_frame self device memory_to_free s :
  handle_frame s (snd (partially_unload self device memory_to_free s)).
Proof.
  unfold partially_unload.
  destruct (negb _); simpl; auto with frame.
  destruct (_model_ref s (heap s self)) as [m|]; simpl; auto with frame.
  destruct (inst_to m) as [to_raises|].
  - destruct (to_raises "cpu"); simpl; frame_steps.
  - destruct (inst_dict m) as [attrs|]; simpl; auto with frame.
    destruct (_ >? _)%Z; simpl; frame_steps.
Qed.

Lemma model_unload_frame self memory_to_free unpatch_weights s :
  handle_frame s (snd (model_unload self memory_to_free unpatch_weights s)).
Proof.
  unfold model_unload.
  pose proof (partially_unload_frame self "cpu" (_memory_size (heap s self)) s) as Hfull.
  destruct (partially_unload self "cpu" (_memory_size (heap s self)) s) as [freed s'] eqn:E.
  destruct memory_to_free as [m|]; simpl; auto.
  destruct (_ <? _)%Z; simpl; auto.
  pose proof (partially_unload_frame self "cpu" m s) as Hpart.
  destruct (partially_unload self "cpu" m s); auto.
Qed.

Lemma model_load_frame self device s : handle_frame s (model_load self device s).
Proof.
  unfold model_load.
  destruct (_is_loaded_on_gpu _); auto with frame.
  destruct (_model_ref s (heap s self)) as [m|]; auto with frame.
  destruct (inst_to m) as [to_raises|].
  - destruct (to_raises _); frame_steps.
  - destruct (inst_dict m); frame_steps.
Qed.

Lemma detach_frame self unpatch_all now s :
  handle_frame s (detach self unpatch_all now s).
Proof.
  unfold detach, _clear_node_engine_caches.
  pose proof (partially_unload_frame self "cpu" (_memory_size (heap s self)) s) as H.
  destruct (partially_unload self "cpu" (_memory_size (heap s self)) s) as [freed s'].
  simpl in H. frame_steps.
Qed.

Lemma partially_load_frame self device extra_memory force_patch_weights s :
  handle_frame s (snd (partially_load self device extra_memory force_patch_weights s)).
Proof.
  unfold partially_load. destruct (_ && _); simpl; auto with frame.
  apply model_load_frame.
Qed.

Lemma is_clone_state self other s : snd (is_clone self other s) = s.
Proof. reflexivity. Qed.

Lemma run_call_frame self c s : handle_frame s (run_call self c s).
Proof.
  destruct c; simpl; auto with frame.
  - apply partially_unload_frame.
  - apply model_unload_frame.
  - apply model_load_frame.
  - apply detach_frame.
  - apply partially_load_frame.
Qed.

Lemma run_calls_frame calls s : handle_frame s (run_calls calls s).
Proof.
  unfold run_calls. revert s.
  induction calls as [|[i c] r IH]; intros s; simpl; auto with frame.
  eapply handle_frame_trans; [apply run_call_frame | apply IH].
Qed.

(** ** The clone test *)

(** C10, as the code has it: the second [def is_clone] of the class body
    replaces the first, so [is_clone] answers [False] for every pair of
    handles and changes nothing. *)
Theorem is_clone_always_false :
  forall (self other : wid) (s : State), is_clone self other s = (false, s).
Proof. intros. reflexivity. Qed.

(** C10 fails as stated: two handles created for the same engine and the
    same kind are not reported as clones of each other. *)
Lemma is_clone_same_engine_and_kind :
  let s := run Sample.standalone
             [Sample.load Sample.torch_module "a" "chatterbox" "cuda";
              Sample.load Sample.torch_module "b" "chatterbox" "cuda"]
             initial_state in
  ModelInfo.engine (model_info (heap s 0)) = ModelInfo.engine (model_info (heap s 1))
  /\ ModelInfo.model_type (model_info (heap s 0))
     = ModelInfo.model_type (model_info (heap s 1))
  /\ fst (is_clone 0 1 s) = false.
Proof. repeat split. Qed.

(** ** The memory estimate *)

(** No [parameters()] enumeration of the instance, or of a value of its
    [__dict__], raises. *)
Definition enumerable (p : option Parameters) : bool :=
  match p with Some params_raise => false | _ => true end.

Definition estimable (model : option Instance) : bool :=
  match model with
  | None => true
  | Some m =>
      match inst_parameters m with
      | Some p => enumerable (Some p)
      | None =>
          match inst_dict m with
          | Some attrs => forallb (fun a => enumerable (comp_parameters (snd a))) attrs
          | None => true
          end
      end
  end.

(** The instance has neither [parameters] nor [__dict__]. *)
Definition opaque (model : option Instance) : bool :=
  match model with
  | None => true
  | Some m =>
      match inst_parameters m, inst_dict m with
      | None, None => true
      | _, _ => false
      end
  end.

Lemma sum_components_estimable attrs total_size :
  forallb (fun a => enumerable (comp_parameters (snd a))) attrs = true ->
  exists n, sum_components attrs total_size = Ok n.
Proof.
  revert total_size.
  induction attrs as [|[name a] r IH]; intros total_size H; simpl in *.
  - eauto.
  - apply andb_true_iff in H as [Ha Hr].
    destruct (comp_parameters a) as [[ps|]|]; simpl in *; try discriminate; auto.
Qed.

(** C9, as the code has it: the estimate is the 1 GiB default exactly for an
    instance with neither [parameters] nor [__dict__]; without [parameters]
    but with [__dict__] it is the sum over the values that have [parameters];
    and it returns a number whenever no [parameters()] enumeration raises
    (nothing in the estimator catches an exception). *)
Theorem calculate_model_memory_default :
  forall model : option Instance,
    (opaque model = true -> calculate_model_memory model = Ok GiB)
    /\ (estimable model = true -> exists n, calculate_model_memory model = Ok n)
    /\ (forall m attrs, model = Some m -> inst_parameters m = None ->
          inst_dict m = Some attrs ->
          calculate_model_memory model = sum_components attrs 0%Z).
Proof.
  intros model. split; [|split].
  - destruct model as [m|]; simpl; auto.
    destruct (inst_parameters m), (inst_dict m); simpl; congruence.
  - destruct model as [m|]; simpl; eauto.
    destruct (inst_parameters m) as [[ps|]|]; simpl; eauto; try discriminate.
    destruct (inst_dict m) as [attrs|]; eauto.
    apply sum_components_estimable.
  - intros m attrs -> Hp Hd. simpl. now rewrite Hp, Hd.
Qed.

Lemma calculate_model_memory_default_witness :
  opaque (Some Sample.slotted_object) = true
  /\ estimable (Some Sample.torch_module) = true
  /\ calculate_model_memory (Some Sample.slotted_object) = Ok GiB
  /\ (exists n, calculate_model_memory (Some Sample.torch_module) = Ok n).
Proof.
  split; [reflexivity|]. split; [reflexivity|]. split.
  - apply (calculate_model_memory_default (Some Sample.slotted_object)). reflexivity.
  - apply (calculate_model_memory_default (Some Sample.torch_module)). reflexivity.
Defined.

(** C9 fails as stated, twice: an ordinary object that exposes no parameter
    buffers anywhere is estimated at 0 bytes, not at the default; and an
    exception raised while enumerating [parameters] leaves the estimator. *)
Lemma calculate_model_memory_plain_object :
  calculate_model_memory (Some Sample.plain_object) = Ok 0%Z
  /\ (0 <? GiB)%Z = true
  /\ calculate_model_memory (Some Sample.hyperparameters_object) = Raise.
Proof. repeat split. Qed.

(** ** Eviction when the transfer raises *)

(** The instance with its [to] replaced by one that never raises. *)
Definition with_working_to (m : Instance) : Instance :=
  {| inst_to := Some (fun _ => false); inst_parameters := inst_parameters m;
     inst_dict := inst_dict m;
     cuda_graphs_initialized := cuda_graphs_initialized m;
     inst_weakref := inst_weakref m |}.

(** C5: for a wrapper that is loaded and whose instance has a [to] that
    raises for ['cpu'], [partially_unload] returns (it has no way to raise),
    reports [_memory_size] as freed, and leaves the wrapper unloaded on
    ['cpu']: the very result and the very wrappers it leaves when the same
    instance's [to] succeeds. *)
Theorem partially_unload_transfer_raises :
  forall (s : State) (self : wid) (o : oid) (to_raises : string -> bool)
         (memory_to_free : Z),
    _is_loaded_on_gpu (heap s self) = true ->
    w_model (heap s self) = Some o ->
    inst_to (objects s o) = Some to_raises ->
    to_raises "cpu" = true ->
    let r := partially_unload self "cpu" memory_to_free s in
    let r_ok := partially_unload self "cpu" memory_to_free
                  (upd_object o with_working_to s) in
    fst r = _memory_size (heap s self)
    /\ residency (heap (snd r) self) = Evicted
    /\ current_device (heap (snd r) self) = "cpu"
    /\ fst r = fst r_ok
    /\ (forall j, heap (snd r) j = heap (snd r_ok) j)
    /\ _model_cache (snd r) = _model_cache (snd r_ok)
    /\ _global_cache_invalidation_flag (snd r)
       = _global_cache_invalidation_flag (snd r_ok).
Proof.
  intros s self o to_raises memory_to_free Hl Hm Hto Hr r r_ok.
  subst r r_ok. unfold partially_unload, _model_ref, residency.
  simpl. rewrite Hl, Hm. simpl. rewrite Nat.eqb_refl, Hto, Hr. simpl.
  rewrite Nat.eqb_refl. simpl. repeat split.
Qed.

Lemma partially_unload_transfer_raises_witness :
  let s := run Sample.standalone
             [Sample.load Sample.stubborn_module "k" "chatterbox" "cuda"]
             initial_state in
  _is_loaded_on_gpu (heap s 0) = true
  /\ fst (partially_unload 0 "cpu" 1%Z s) = 4000%Z
  /\ residency (heap (snd (partially_unload 0 "cpu" 1%Z s)) 0) = Evicted.
Proof.
  intros s. split; [reflexivity|].
  pose proof (partially_unload_transfer_raises s 0 0 (fun _ => true) 1%Z
                eq_refl eq_refl eq_refl eq_refl) as H.
  cbv zeta in H. destruct H as (H1 & H2 & _). split; [exact H1 | exact H2].
Defined.

(** ** What the manager's operations can change *)

Abbreviation flag := _global_cache_invalidation_flag.

Arguments partially_unload : simpl never.
Arguments model_unload : simpl never.
Arguments model_load : simpl never.
Arguments detach : simpl never.
Arguments partially_load : simpl never.
Arguments remove_model : simpl never.
Arguments remove_models : simpl never.
Arguments reset_cuda_graph_state : simpl never.
Arguments reinitialize_in_place : simpl never.
Arguments resurrect : simpl never.
Arguments clear_other_engines : simpl never.
Arguments free_memory_before_load : simpl never.
Arguments create_model : simpl never.
Arguments load_model : simpl never.
Arguments __init__ : simpl never.

(** What the constructor sets, when it returns. *)
Lemma init_returns env m referent info w :
  __init__ env m referent info = Ok w ->
  w_model w = m /\ model_info w = info
  /\ _memory_size w = ModelInfo.memory_size info
  /\ current_device w = ModelInfo.device info
  /\ _is_loaded_on_gpu w = negb (in_cpu_offload (ModelInfo.device info))
  /\ _is_valid_for_reuse w = true.
Proof.
  unfold __init__.
  destruct (String.eqb _ "cuda");
    [|destruct (torch_device_accepts env _); [|discriminate]];
    (destruct referent as [model|];
     [destruct (inst_weakref model); [|discriminate]|]);
    intros H; inversion H; subst; simpl; repeat split.
Qed.

Ltac case_init :=
  match goal with
  | |- context [__init__ ?a ?b ?c ?d] =>
      let w := fresh "self" in
      let E := fresh "Einit" in
      destruct (__init__ a b c d) as [w|] eqn:E
  end.
Arguments run_calls : simpl never.

(** Steps that take no clock reading, allocate nothing and call no factory:
    they may move cache entries, move wrappers between devices and reset
    flags of instances. *)
Definition quiet (s s' : State) : Prop :=
  flag s' = flag s
  /\ next_wrapper s' = next_wrapper s
  /\ next_object s' = next_object s
  /\ factory_calls s' = factory_calls s
  /\ forall j, wrapper_frame (heap s j) (heap s' j).

Lemma quiet_refl s : quiet s s.
Proof. repeat split. Qed.

Lemma quiet_trans s1 s2 s3 : quiet s1 s2 -> quiet s2 s3 -> quiet s1 s3.
Proof.
  intros (a & b & c & d & f) (a' & b' & c' & d' & f').
  repeat split; try congruence; destruct (f j), (f' j); intuition congruence.
Qed.

Lemma quiet_of_frame s s' : handle_frame s s' -> flag s' = flag s -> quiet s s'.
Proof. intros (a & b & c & d & e & f) H. repeat split; auto; apply f. Qed.

Ltac split_matches :=
  repeat match goal with
         | |- context [match ?x with _ => _ end] => destruct x; simpl
         end.

Lemma partially_unload_flag self device memory_to_free s :
  flag (snd (partially_unload self device memory_to_free s)) = flag s.
Proof. unfold partially_unload. split_matches; reflexivity. Qed.

Lemma model_unload_flag self memory_to_free unpatch_weights s :
  flag (snd (model_unload self memory_to_free unpatch_weights s)) = flag s.
Proof.
  unfold model_unload.
  pose proof (partially_unload_flag self "cpu" (_memory_size (heap s self)) s).
  destruct (partially_unload self "cpu" (_memory_size (heap s self)) s).
  destruct memory_to_free as [m|]; simpl; auto.
  destruct (_ <? _)%Z; simpl; auto.
  pose proof (partially_unload_flag self "cpu" m s).
  destruct (partially_unload self "cpu" m s); auto.
Qed.

Lemma model_load_flag self device s : flag (model_load self device s) = flag s.
Proof. unfold model_load. split_matches; reflexivity. Qed.

Lemma partially_load_flag self device extra_memory force_patch_weights s :
  flag (snd (partially_load self device extra_memory force_patch_weights s)) = flag s.
Proof.
  unfold partially_load. destruct (_ && _); simpl; auto using model_load_flag.
Qed.

Lemma detach_flag self unpatch_all now s :
  flag (detach self unpatch_all now s) = now.
Proof.
  unfold detach. destruct (partially_unload _ _ _ _). reflexivity.
Qed.

Lemma model_unload_quiet self memory_to_free unpatch_weights s :
  quiet s (snd (model_unload self memory_to_free unpatch_weights s)).
Proof. apply quiet_of_frame; [apply model_unload_frame | apply model_unload_flag]. Qed.

Lemma model_load_quiet self device s : quiet s (model_load self device s).
Proof. apply quiet_of_frame; [apply model_load_frame | apply model_load_flag]. Qed.

Lemma set_cache_quiet c s : quiet s (set_cache c s).
Proof. repeat split. Qed.

Lemma upd_wrapper_quiet self f s :
  (forall w, wrapper_frame w (f w)) -> quiet s (upd_wrapper self f s).
Proof.
  intros Hf. repeat split; simpl;
    destruct (Nat.eqb j self); auto; try apply Hf.
Qed.

Lemma reset_cuda_graph_state_quiet wrapper s :
  quiet s (reset_cuda_graph_state wrapper s).
Proof.
  unfold reset_cuda_graph_state.
  destruct (w_model _); [|apply quiet_refl].
  destruct (cuda_graphs_initialized _); [|apply quiet_refl].
  repeat split.
Qed.

Lemma reinitialize_in_place_quiet wrapper device s :
  quiet s (reinitialize_in_place wrapper device s).
Proof.
  unfold reinitialize_in_place.
  eapply quiet_trans; [apply reset_cuda_graph_state_quiet|].
  eapply quiet_trans; [apply model_load_quiet|].
  apply upd_wrapper_quiet, frame_set_is_valid_for_reuse.
Qed.

Lemma remove_model_quiet model_key s : quiet s (snd (remove_model model_key s)).
Proof.
  unfold remove_model.
  destruct (PyDict.get _ _) as [wrapper|]; [|apply quiet_refl].
  destruct (String.eqb _ _); simpl.
  - repeat split.
  - eapply quiet_trans; [apply set_cache_quiet | apply model_unload_quiet].
Qed.

Lemma remove_models_quiet keys s : quiet s (remove_models keys s).
Proof.
  unfold remove_models. revert s.
  induction keys as [|k r IH]; intros s; simpl; [apply quiet_refl|].
  eapply quiet_trans; [apply remove_model_quiet | apply IH].
Qed.

Lemma clear_cache_quiet model_type engine s :
  quiet s (clear_cache model_type engine s).
Proof. apply remove_models_quiet. Qed.

Lemma clear_other_engines_quiet model_type engine s :
  quiet s (clear_other_engines model_type engine s).
Proof.
  unfold clear_other_engines.
  destruct (_ && _); [apply remove_models_quiet | apply quiet_refl].
Qed.

Lemma resurrect_quiet model_key wrapper s :
  quiet s (resurrect model_key wrapper s).
Proof.
  unfold resurrect.
  eapply quiet_trans; [apply set_cache_quiet|].
  eapply quiet_trans; [apply reset_cuda_graph_state_quiet|].
  eapply quiet_trans; [apply set_cache_quiet|].
  apply upd_wrapper_quiet, frame_set_is_valid_for_reuse.
Qed.

(** Steps in general: existing wrappers keep their write-once attributes,
    and the two counters only grow. *)
Definition grows (s s' : State) : Prop :=
  next_wrapper s <= next_wrapper s'
  /\ factory_calls s <= factory_calls s'
  /\ forall j, j < next_wrapper s -> wrapper_frame (heap s j) (heap s' j).

Lemma grows_refl s : grows s s.
Proof. repeat split; auto. Qed.

Lemma grows_trans s1 s2 s3 : grows s1 s2 -> grows s2 s3 -> grows s1 s3.
Proof.
  intros (a & b & f) (a' & b' & f'). split; [lia|]. split; [lia|].
  intros j Hj. eapply wrapper_frame_trans; [apply f | apply f']; lia.
Qed.

Lemma grows_of_quiet s s' : quiet s s' -> grows s s'.
Proof. intros (a & b & c & d & f). split; [lia|]. split; [lia|]. auto. Qed.

Lemma grows_of_frame s s' : handle_frame s s' -> grows s s'.
Proof. intros (a & b & c & d & e & f). split; [lia|]. split; [lia|]. auto. Qed.

Lemma free_memory_before_load_grows env model_type engine device host s :
  grows s (free_memory_before_load env model_type engine device host s).
Proof.
  unfold free_memory_before_load.
  destruct (_ && _); [|apply grows_refl].
  destruct host as [|calls|calls].
  - apply grows_of_quiet, clear_other_engines_quiet.
  - eapply grows_trans; [apply grows_of_frame, run_calls_frame|].
    apply grows_of_quiet, clear_other_engines_quiet.
  - apply grows_of_frame, run_calls_frame.
Qed.

Lemma new_wrapper_grows w s : grows s (snd (new_wrapper w s)).
Proof.
  split; [simpl; lia|]. split; [simpl; lia|]. intros j Hj. simpl.
  destruct (Nat.eqb_spec j (next_wrapper s)); [lia | apply wrapper_frame_refl].
Qed.

Lemma create_model_grows env f model_key model_type engine device host s :
  grows s (snd (create_model env f model_key model_type engine device host s)).
Proof.
  unfold create_model.
  eapply grows_trans; [apply (free_memory_before_load_grows env model_type engine device host)|].
  generalize (free_memory_before_load env model_type engine device host s) as s1.
  intros s1.
  assert (H1 : grows s1 (count_factory_call s1)).
  { split; [simpl; lia|]. split; [simpl; lia|].
    intros; apply wrapper_frame_refl. }
  eapply grows_trans; [exact H1|].
  destruct (f device) as [m|]; [|apply grows_refl].
  destruct (calculate_model_memory m) as [memory_size|];
    destruct m as [inst|]; cbn -[calculate_model_memory];
    try (repeat split; auto; fail);
    case_init; cbn [snd];
    try (repeat split; auto; fail);
    (split; [simpl; lia|]); (split; [simpl; lia|]); intros j Hj; simpl in *;
    destruct (Nat.eqb_spec j (next_wrapper s1)); try lia;
    apply wrapper_frame_refl.
Qed.

Lemma load_model_grows env f model_key model_type engine device force_reload host s :
  grows s
    (snd (load_model env f model_key model_type engine device force_reload host s)).
Proof.
  unfold load_model.
  destruct (if String.eqb engine "higgs_audio" then _ else _) as [wrapper|].
  - apply grows_of_quiet, resurrect_quiet.
  - destruct (PyDict.get model_key _) as [wrapper|];
      [|apply create_model_grows].
    destruct (negb force_reload).
    + destruct (negb _).
      * destruct (String.eqb engine _); simpl.
        -- apply grows_of_quiet, reinitialize_in_place_quiet.
        -- eapply grows_trans; [apply grows_of_quiet, remove_model_quiet|].
           apply create_model_grows.
      * simpl. destruct (_ && _); [|apply grows_refl].
        apply grows_of_quiet, model_load_quiet.
    + destruct (String.eqb engine _); simpl.
      * apply grows_of_quiet, reinitialize_in_place_quiet.
      * eapply grows_trans; [apply grows_of_quiet, remove_model_quiet|].
        apply create_model_grows.
Qed.

Lemma run_op_grows env op s : grows s (run_op env op s).
Proof.
  destruct op; simpl.
  - apply load_model_grows.
  - apply grows_refl.
  - apply grows_of_quiet, remove_model_quiet.
  - apply grows_of_quiet, clear_cache_quiet.
  - apply grows_refl.
  - apply grows_of_frame, run_call_frame.
Qed.

Lemma run_grows env ops s : grows s (run env ops s).
Proof.
  unfold run. revert s.
  induction ops as [|op r IH]; intros s; simpl; [apply grows_refl|].
  eapply grows_trans; [apply run_op_grows | apply IH].
Qed.

(** ** The invalidation flag and the clock *)

(** The readings of [time.time()] an operation takes, in order. *)
Definition clock_readings_call (c : HandleCall) : list Q :=
  match c with
  | call_detach _ now => [now]
  | _ => []
  end.

Definition clock_readings_calls (calls : list (wid * HandleCall)) : list Q :=
  flat_map (fun c => clock_readings_call (snd c)) calls.

Definition clock_readings (op : Op) : list Q :=
  match op with
  | op_load_model _ _ _ _ _ _ (fm_returns calls)
  | op_load_model _ _ _ _ _ _ (fm_raises calls) => clock_readings_calls calls
  | op_call _ c => clock_readings_call c
  | _ => []
  end.

(** Each reading is at least the one before it, starting from [t0]. *)
Fixpoint clock_nondecreasing (t0 : Q) (readings : list Q) : Prop :=
  match readings with
  | [] => True
  | t :: r => (t0 <= t)%Q /\ clock_nondecreasing t r
  end.

Lemma clock_nondecreasing_weaken t t' l :
  (t <= t')%Q -> clock_nondecreasing t' l -> clock_nondecreasing t l.
Proof.
  destruct l as [|a r]; simpl; auto.
  intros H [H1 H2]. split; auto. eapply Qle_trans; eauto.
Qed.

Lemma clock_nondecreasing_app l1 : forall t0 l2 t1,
  clock_nondecreasing t0 (l1 ++ l2)%list ->
  t1 = t0 \/ In t1 l1 ->
  (t0 <= t1)%Q /\ clock_nondecreasing t1 l2.
Proof.
  induction l1 as [|a r IH]; intros t0 l2 t1 H Hin; simpl in *.
  - destruct Hin as [->|[]]. split; [apply Qle_refl | assumption].
  - destruct H as [H0 H].
    destruct Hin as [->|[->|Hin]].
    + split; [apply Qle_refl|].
      apply clock_nondecreasing_weaken with a; auto.
      apply (IH a l2 a H). now left.
    + destruct (IH t1 l2 t1 H) as [_ H2]; [now left|]. split; assumption.
    + destruct (IH a l2 t1 H) as [H1 H2]; [now right|].
      split; [eapply Qle_trans; eauto | assumption].
Qed.

(** The value a variable holds after it was assigned each reading in turn. *)
Definition latest (d : Q) (readings : list Q) : Q :=
  fold_left (fun _ t => t) readings d.

Lemma latest_or_In l : forall d, latest d l = d \/ In (latest d l) l.
Proof.
  induction l as [|a r IH]; intros d; [now left|].
  unfold latest; simpl. fold (latest a r).
  destruct (IH a) as [->|H]; right; [now left | now right].
Qed.

Lemma run_call_flag self c s :
  flag (run_call self c s) = latest (flag s) (clock_readings_call c).
Proof.
  destruct c; simpl; auto using partially_unload_flag, model_unload_flag,
    model_load_flag, partially_load_flag, detach_flag.
Qed.

Lemma run_calls_flag calls s :
  flag (run_calls calls s) = latest (flag s) (clock_readings_calls calls).
Proof.
  unfold run_calls, clock_readings_calls, latest. revert s.
  induction calls as [|[i c] r IH]; intros s; simpl; auto.
  rewrite IH, run_call_flag, fold_left_app. reflexivity.
Qed.

Lemma quiet_flag s s' : quiet s s' -> flag s' = flag s.
Proof. now intros (H & _). Qed.

Definition host_readings (host : FreeMemory) : list Q :=
  match host with
  | fm_unavailable => []
  | fm_returns calls | fm_raises calls => clock_readings_calls calls
  end.

Lemma free_memory_before_load_flag env model_type engine device host s :
  let s' := free_memory_before_load env model_type engine device host s in
  flag s' = flag s \/ In (flag s') (host_readings host).
Proof.
  unfold free_memory_before_load.
  destruct (_ && _); [|now left].
  destruct host as [|calls|calls]; cbv zeta;
    rewrite ?(quiet_flag _ _ (clear_other_engines_quiet _ _ _));
    try rewrite run_calls_flag; simpl; auto using latest_or_In.
Qed.

Lemma create_model_flag env f model_key model_type engine device host s :
  flag (snd (create_model env f model_key model_type engine device host s))
  = flag (free_memory_before_load env model_type engine device host s).
Proof.
  unfold create_model.
  generalize (free_memory_before_load env model_type engine device host s) as s1.
  intros s1. destruct (f device) as [m|]; [|reflexivity].
  destruct (calculate_model_memory m); destruct m;
    cbn -[calculate_model_memory]; try reflexivity; case_init; reflexivity.
Qed.

Lemma load_model_flag env f model_key model_type engine device force_reload host s :
  let s' := snd (load_model env f model_key model_type engine device
                   force_reload host s) in
  flag s' = flag s \/ In (flag s') (host_readings host).
Proof.
  assert (Hcreate : forall s0, flag s0 = flag s ->
            let s' := snd (create_model env f model_key model_type engine
                             device host s0) in
            flag s' = flag s \/ In (flag s') (host_readings host)).
  { intros s0 H0. cbv zeta. rewrite create_model_flag, <- H0.
    apply free_memory_before_load_flag. }
  unfold load_model.
  destruct (if String.eqb engine "higgs_audio" then _ else _) as [wrapper|].
  - left. apply quiet_flag, resurrect_quiet.
  - destruct (PyDict.get model_key _) as [wrapper|]; [|now apply Hcreate].
    destruct (negb force_reload).
    + destruct (negb _).
      * destruct (String.eqb engine _).
        -- left. apply quiet_flag, reinitialize_in_place_quiet.
        -- apply Hcreate. apply quiet_flag, remove_model_quiet.
      * left. cbn [snd]. destruct (_ && _); auto using model_load_flag.
    + destruct (String.eqb engine _).
      * left. apply quiet_flag, reinitialize_in_place_quiet.
      * apply Hcreate. apply quiet_flag, remove_model_quiet.
Qed.

Lemma run_op_flag env op s :
  flag (run_op env op s) = flag s \/ In (flag (run_op env op s)) (clock_readings op).
Proof.
  destruct op as [f k t e d fr host| | | | |self c]; simpl.
  - apply (load_model_flag env f k t e d fr host s).
  - now left.
  - left. apply quiet_flag, remove_model_quiet.
  - left. apply quiet_flag, clear_cache_quiet.
  - now left.
  - rewrite run_call_flag. apply latest_or_In.
Qed.

(** C7, as the code has it: [detach] writes the reading of [time.time()]
    into the flag and nothing else writes it. So after any operation the
    flag is what it was or one of the readings the operation took; over a
    run whose readings never step back (starting from the flag's value) the
    flag never decreases; and a [detach] raises the flag strictly when its
    reading is later than the flag. *)
Theorem flag_follows_clock (env : Env) :
  (forall self unpatch_all now s, flag (detach self unpatch_all now s) = now)
  /\ (forall op s,
         flag (run_op env op s) = flag s
         \/ In (flag (run_op env op s)) (clock_readings op))
  /\ (forall ops s,
         clock_nondecreasing (flag s) (flat_map clock_readings ops) ->
         (flag s <= flag (run env ops s))%Q)
  /\ (forall self unpatch_all now s,
         (flag s < now)%Q -> (flag s < flag (detach self unpatch_all now s))%Q).
Proof.
  split; [|split; [|split]].
  - intros. apply detach_flag.
  - intros. apply run_op_flag.
  - unfold run. intros ops. induction ops as [|op r IH]; intros s H; simpl in *.
    + apply Qle_refl.
    + destruct (clock_nondecreasing_app _ _ _ (flag (run_op env op s)) H)
        as [H1 H2].
      { destruct (run_op_flag env op s); auto. }
      eapply Qle_trans; [exact H1 | apply IH, H2].
  - intros. now rewrite detach_flag.
Qed.

Lemma flag_follows_clock_witness :
  let ops := [Sample.load Sample.torch_module "k" "chatterbox" "cuda";
              op_call 0 (call_detach false (1700000000 # 1)%Q);
              op_call 0 (call_detach false (1700000001 # 1)%Q)] in
  clock_nondecreasing (flag initial_state) (flat_map clock_readings ops)
  /\ (flag initial_state <= flag (run Sample.standalone ops initial_state))%Q.
Proof.
  intros ops.
  assert (H : clock_nondecreasing (flag initial_state) (flat_map clock_readings ops)).
  { subst ops; simpl. repeat split; unfold Qle; simpl; lia. }
  split; [exact H|].
  apply (flag_follows_clock Sample.standalone). exact H.
Defined.

(** C7 fails as stated: a [detach] that reads the same clock value as the
    one before it leaves the flag where it was, and one that reads an
    earlier value (the wall clock was set back) lowers it. *)
Lemma detach_clock_not_later :
  let t := (1700000000 # 1)%Q in
  let s1 := run Sample.standalone
              [Sample.load Sample.torch_module "k" "chatterbox" "cuda";
               op_call 0 (call_detach false t)] initial_state in
  let s2 := run_op Sample.standalone (op_call 0 (call_detach false t)) s1 in
  let s3 := run_op Sample.standalone
              (op_call 0 (call_detach false (1699999999 # 1)%Q)) s1 in
  Qle_bool (flag s2) (flag s1) = true
  /\ Qle_bool (flag s1) (flag s3) = false.
Proof. split; reflexivity. Qed.

(** ** Cache statistics *)

(** [d.get(k, 0)] *)
Definition lookup0 (k : string) (d : PyDict.t nat) : nat :=
  match PyDict.get k d with Some n => n | None => 0 end.

(** How many of the wrappers [ws] have attribute value [k]. *)
Definition count_of (g : wid -> string) (k : string) (ws : list wid) : nat :=
  length (filter (fun w => String.eqb (g w) k) ws).

Definition Z_sum (l : list Z) : Z := fold_right Z.add 0%Z l.

Lemma count_up_lookup k k' d :
  lookup0 k' (count_up k d) = lookup0 k' d + (if String.eqb k k' then 1 else 0).
Proof.
  unfold lookup0, count_up.
  destruct (String.eqb_spec k k') as [->|Hne].
  - now rewrite get_set_same.
  - rewrite get_set_other by congruence. lia.
Qed.

Lemma fold_count_up (g : wid -> string) k ws : forall d,
  lookup0 k (fold_left (fun d w => count_up (g w) d) ws d)
  = lookup0 k d + count_of g k ws.
Proof.
  unfold count_of.
  induction ws as [|w r IH]; intros d; simpl; [lia|].
  rewrite IH, count_up_lookup. destruct (String.eqb (g w) k); simpl; lia.
Qed.

Lemma fold_left_Z_sum {A} (g : A -> Z) l : forall acc,
  fold_left (fun acc w => (acc + g w)%Z) l acc = (acc + Z_sum (map g l))%Z.
Proof.
  induction l as [|a r IH]; intros acc; simpl; [lia|]. rewrite IH. lia.
Qed.

Lemma count_of_In g w ws : In w ws -> 1 <= count_of g (g w) ws.
Proof.
  unfold count_of. induction ws as [|a r IH]; simpl; [tauto|].
  intros [->|H].
  - rewrite String.eqb_refl. simpl. lia.
  - apply IH in H. destruct (String.eqb (g a) (g w)); simpl; lia.
Qed.

(** C8, as the code has it: [get_stats] reads and does not write, and it
    aggregates over every entry of [_model_cache], the entries stored under
    a shadow key included: [total_models] is the number of entries,
    [total_memory_mb] the loaded sizes of all of them summed and cut to MiB,
    and each count by type or by engine is the number of entries of that
    type or engine. A wrapper in shadow storage is therefore counted. *)
Theorem get_stats_counts_every_entry (env : Env) (s : State) :
  let st := fst (get_stats env s) in
  let ws := PyDict.values (_model_cache s) in
  snd (get_stats env s) = s
  /\ total_models st = length ws
  /\ total_memory_mb st
     = (Z_sum (map (fun w => fst (loaded_size w s)) ws) / 1024 / 1024)%Z
  /\ (forall t, lookup0 t (by_type st)
                = count_of (fun w => ModelInfo.model_type (model_info (heap s w))) t ws)
  /\ (forall e, lookup0 e (by_engine st)
                = count_of (fun w => ModelInfo.engine (model_info (heap s w))) e ws)
  /\ (forall model_key w,
         PyDict.get (shadow_key model_key) (_model_cache s) = Some w ->
         1 <= total_models st
         /\ 1 <= lookup0 (ModelInfo.model_type (model_info (heap s w))) (by_type st)
         /\ 1 <= lookup0 (ModelInfo.engine (model_info (heap s w))) (by_engine st)).
Proof.
  intros st ws.
  assert (Hlen : total_models st = length ws).
  { subst st ws. simpl. unfold PyDict.values. now rewrite length_map. }
  assert (Ht : forall t, lookup0 t (by_type st)
                = count_of (fun w => ModelInfo.model_type (model_info (heap s w))) t ws).
  { intros t. subst st ws. simpl.
    rewrite (fold_count_up (fun w => ModelInfo.model_type (model_info (heap s w)))).
    reflexivity. }
  assert (He : forall e, lookup0 e (by_engine st)
                = count_of (fun w => ModelInfo.engine (model_info (heap s w))) e ws).
  { intros e. subst st ws. simpl.
    rewrite (fold_count_up (fun w => ModelInfo.engine (model_info (heap s w)))).
    reflexivity. }
  repeat apply conj; auto.
  - subst st ws. simpl. unfold total_memory.
    rewrite (fold_left_Z_sum (fun w => fst (loaded_size w s))). reflexivity.
  - intros model_key w Hget. apply get_In in Hget. fold ws in Hget.
    rewrite Hlen, Ht, He. repeat split.
    + destruct ws; [destruct Hget | simpl; lia].
    + apply (count_of_In (fun w => ModelInfo.model_type (model_info (heap s w)))), Hget.
    + apply (count_of_In (fun w => ModelInfo.engine (model_info (heap s w)))), Hget.
Qed.

Lemma get_stats_counts_every_entry_witness :
  let s := run Sample.standalone
             [Sample.load Sample.higgs_engine "K" "higgs_audio" "cuda";
              op_remove_model "K"] initial_state in
  PyDict.get (shadow_key "K") (_model_cache s) = Some 0
  /\ 1 <= lookup0 "higgs_audio" (by_engine (fst (get_stats Sample.standalone s))).
Proof.
  intros s. split; [reflexivity|].
  pose proof (get_stats_counts_every_entry Sample.standalone s) as H.
  cbv zeta in H. destruct H as (_ & _ & _ & _ & _ & H).
  destruct (H "K" 0 eq_refl) as (_ & _ & H3). exact H3.
Defined.

(** C8 fails as stated: after a Higgs Audio model was loaded and removed,
    its key is gone from the cache, and the statistics still count one
    model, its 2048 MiB, its type and its engine. *)
Lemma get_stats_counts_shadow_entry :
  let s := run Sample.standalone
             [Sample.load Sample.higgs_engine "K" "higgs_audio" "cuda";
              op_remove_model "K"] initial_state in
  let st := fst (get_stats Sample.standalone s) in
  PyDict.contains "K" (_model_cache s) = false
  /\ PyDict.contains (shadow_key "K") (_model_cache s) = true
  /\ total_models st = 1
  /\ total_memory_mb st = 2048%Z
  /\ by_type st = [("tts", 1)]
  /\ by_engine st = [("higgs_audio", 1)].
Proof. repeat split. Qed.

(** ** Shadow keys *)

Lemma shadow_key_length k : String.length (shadow_key k) = 8 + String.length k.
Proof. reflexivity. Qed.

Lemma shadow_key_neq k : shadow_key k <> k.
Proof.
  intros H. apply (f_equal String.length) in H.
  rewrite shadow_key_length in H. lia.
Qed.

Lemma shadow_key_inj k k' : shadow_key k = shadow_key k' -> k = k'.
Proof. unfold shadow_key. simpl. intros H. now injection H. Qed.

Lemma shadow_key_prefix k : String.prefix "_shadow_" (shadow_key k) = true.
Proof. unfold shadow_key. simpl. now destruct k. Qed.

Lemma not_shadow_key k k' : String.prefix "_shadow_" k = false -> k <> shadow_key k'.
Proof. intros H ->. rewrite shadow_key_prefix in H. discriminate. Qed.

(** ** What leaves the cache alone *)

Lemma frame_cache s s' : handle_frame s s' -> _model_cache s' = _model_cache s.
Proof. now intros (H & _). Qed.

Lemma reset_cuda_graph_state_cache wrapper s :
  _model_cache (reset_cuda_graph_state wrapper s) = _model_cache s
  /\ heap (reset_cuda_graph_state wrapper s) = heap s.
Proof. unfold reset_cuda_graph_state. split_matches; auto. Qed.

Lemma model_load_valid self device s j :
  _is_valid_for_reuse (heap (model_load self device s) j)
  = _is_valid_for_reuse (heap s j).
Proof.
  unfold model_load. split_matches; auto; destruct (Nat.eqb j self); auto.
Qed.

Lemma reinitialize_in_place_cache wrapper device s :
  _model_cache (reinitialize_in_place wrapper device s) = _model_cache s.
Proof.
  unfold reinitialize_in_place. simpl.
  rewrite (frame_cache _ _ (model_load_frame _ _ _)).
  apply reset_cuda_graph_state_cache.
Qed.

Lemma remove_model_other_engine model_key s i :
  PyDict.get model_key (_model_cache s) = Some i ->
  String.eqb (ModelInfo.engine (model_info (heap s i))) "higgs_audio" = false ->
  _model_cache (snd (remove_model model_key s))
  = PyDict.remove model_key (_model_cache s).
Proof.
  intros Hget He. unfold remove_model. rewrite Hget, He. cbn [snd].
  now rewrite (frame_cache _ _ (model_unload_frame _ _ _ _)).
Qed.

Lemma remove_model_higgs model_key s i :
  PyDict.get model_key (_model_cache s) = Some i ->
  ModelInfo.engine (model_info (heap s i)) = "higgs_audio" ->
  remove_model model_key s
  = (true, set_cache (PyDict.set (shadow_key model_key) i
                        (PyDict.remove model_key (_model_cache s))) s).
Proof.
  intros Hget He. unfold remove_model. rewrite Hget, He. reflexivity.
Qed.

(** Removing wrappers of engines other than Higgs Audio adds no key. *)
Lemma remove_models_shrink keys : forall s,
  (forall key i, In key keys -> PyDict.get key (_model_cache s) = Some i ->
     String.eqb (ModelInfo.engine (model_info (heap s i))) "higgs_audio" = false) ->
  forall k v, PyDict.get k (_model_cache (remove_models keys s)) = Some v ->
              PyDict.get k (_model_cache s) = Some v.
Proof.
  unfold remove_models.
  induction keys as [|key0 r IH]; intros s Hk k v Hget; simpl in *; auto.
  destruct (PyDict.get key0 (_model_cache s)) as [i|] eqn:E.
  - pose proof (remove_model_other_engine key0 s i E (Hk key0 i (or_introl eq_refl) E))
      as Hc.
    apply IH in Hget.
    + rewrite Hc in Hget. eapply get_remove_Some; eauto.
    + intros key i' Hin Hg. rewrite Hc in Hg. apply get_remove_Some in Hg.
      destruct (remove_model_quiet key0 s) as (_ & _ & _ & _ & Hf).
      destruct (Hf i') as (_ & -> & _). eauto.
  - assert (Hs : snd (remove_model key0 s) = s).
    { unfold remove_model. now rewrite E. }
    rewrite Hs in Hget. apply IH in Hget; eauto.
Qed.

Lemma clear_other_engines_shrink model_type s k v :
  PyDict.get k (_model_cache (clear_other_engines model_type "higgs_audio" s)) = Some v ->
  PyDict.get k (_model_cache s) = Some v.
Proof.
  unfold clear_other_engines. destruct (_ && _); auto.
  apply remove_models_shrink. intros key i Hin Hg.
  apply filter_In in Hin as [_ Hp]. rewrite Hg in Hp.
  apply andb_true_iff in Hp as [Hp _]. now apply negb_true_iff in Hp.
Qed.

Lemma free_memory_before_load_shrink env model_type device host s k v :
  PyDict.get k (_model_cache
                  (free_memory_before_load env model_type "higgs_audio" device host s))
  = Some v ->
  PyDict.get k (_model_cache s) = Some v.
Proof.
  unfold free_memory_before_load. destruct (_ && _); auto.
  destruct host as [|calls|calls]; intros H.
  - eapply clear_other_engines_shrink; eauto.
  - apply clear_other_engines_shrink in H.
    now rewrite (frame_cache _ _ (run_calls_frame _ _)) in H.
  - now rewrite (frame_cache _ _ (run_calls_frame _ _)) in H.
Qed.

(** ** Resurrection *)

Lemma resurrect_spec model_key wrapper s :
  let s' := resurrect model_key wrapper s in
  _model_cache s'
  = PyDict.set model_key wrapper
      (PyDict.remove (shadow_key model_key) (_model_cache s))
  /\ _is_valid_for_reuse (heap s' wrapper) = true
  /\ (forall o, w_model (heap s wrapper) = Some o ->
        cuda_graphs_initialized (objects s' o)
        = option_map (fun _ => false) (cuda_graphs_initialized (objects s o))).
Proof.
  unfold resurrect. cbv zeta.
  set (s1 := set_cache (PyDict.remove (shadow_key model_key) (_model_cache s)) s).
  destruct (reset_cuda_graph_state_cache wrapper s1) as [Hc Hh].
  split; [|split].
  - simpl. now rewrite Hc.
  - simpl. now rewrite Nat.eqb_refl.
  - intros o Ho. simpl. unfold reset_cuda_graph_state.
    change (heap s1 wrapper) with (heap s wrapper). rewrite Ho.
    change (objects s1 o) with (objects s o).
    destruct (cuda_graphs_initialized (objects s o)) eqn:E; simpl.
    + now rewrite Nat.eqb_refl.
    + exact E.
Qed.

(** C2: when the cache holds under [model_key] a wrapper of engine
    ["higgs_audio"], [remove_model] followed by [load_model] for that key
    and engine returns that very wrapper, still referring to the same
    instance, marked valid, with the instance's [cuda_graphs_initialized]
    (when it has one) set to [False], and without a call of the factory. *)
Theorem remove_then_load_resurrects (env : Env) (f : Factory)
    (model_key model_type device : string) (force_reload : bool)
    (host : FreeMemory) (s : State) (i : wid) :
  PyDict.get model_key (_model_cache s) = Some i ->
  ModelInfo.engine (model_info (heap s i)) = "higgs_audio" ->
  let removed := remove_model model_key s in
  let r := load_model env f model_key model_type "higgs_audio" device
             force_reload host (snd removed) in
  fst removed = true
  /\ fst r = Ok i
  /\ PyDict.get model_key (_model_cache (snd r)) = Some i
  /\ w_model (heap (snd r) i) = w_model (heap s i)
  /\ _is_valid_for_reuse (heap (snd r) i) = true
  /\ (forall o, w_model (heap s i) = Some o ->
        cuda_graphs_initialized (objects (snd r) o)
        = option_map (fun _ => false) (cuda_graphs_initialized (objects s o)))
  /\ factory_calls (snd r) = factory_calls s.
Proof.
  intros Hget He removed r. subst removed r.
  rewrite (remove_model_higgs model_key s i Hget He). cbn [fst snd].
  set (s1 := set_cache _ s).
  unfold load_model. rewrite String.eqb_refl.
  assert (Hs : PyDict.get (shadow_key model_key) (_model_cache s1) = Some i).
  { subst s1. simpl. apply get_set_same. }
  rewrite Hs. cbn [fst snd].
  destruct (resurrect_spec model_key i s1) as (Hc & Hv & Hg).
  destruct (resurrect_quiet model_key i s1) as (_ & _ & _ & Hfc & Hf).
  repeat apply conj; auto.
  - rewrite Hc. apply get_set_same.
  - destruct (Hf i) as (Hm & _). exact Hm.
Qed.

Lemma remove_then_load_resurrects_witness :
  let s := run Sample.standalone
             [Sample.load Sample.higgs_engine "K" "higgs_audio" "cuda"]
             initial_state in
  let r := load_model Sample.standalone (Sample.factory_of Sample.higgs_engine)
             "K" "tts" "higgs_audio" "cuda" false fm_unavailable
             (snd (remove_model "K" s)) in
  cuda_graphs_initialized (objects s 0) = Some true
  /\ fst r = Ok 0
  /\ cuda_graphs_initialized (objects (snd r) 0) = Some false
  /\ factory_calls (snd r) = 1.
Proof.
  intros s r. split; [reflexivity|].
  pose proof (remove_then_load_resurrects Sample.standalone
                (Sample.factory_of Sample.higgs_engine) "K" "tts" "cuda" false
                fm_unavailable s 0 eq_refl eq_refl) as H.
  cbv zeta in H. destruct H as (_ & H2 & _ & _ & _ & H6 & H7).
  split; [exact H2|]. split; [exact (H6 0 eq_refl) | exact H7].
Defined.

(** ** Reuse of a cached model *)

(** What [load_model] leaves behind when it returns the wrapper [h]. *)
Definition served (model_key engine : string) (h : wid) (s : State) : Prop :=
  PyDict.get model_key (_model_cache s) = Some h
  /\ _is_valid_for_reuse (heap s h) = true
  /\ (engine = "higgs_audio" ->
      PyDict.get (shadow_key model_key) (_model_cache s) = None).

Lemma create_model_served env f model_key model_type engine device host s0 h s1 :
  (engine = "higgs_audio" ->
   PyDict.get (shadow_key model_key) (_model_cache s0) = None) ->
  create_model env f model_key model_type engine device host s0 = (Ok h, s1) ->
  served model_key engine h s1 /\ factory_calls s1 <= factory_calls s0 + 1.
Proof.
  intros Hsh. unfold create_model.
  pose proof (free_memory_before_load_grows env model_type engine device host s0) as Hg.
  assert (Hsh' : engine = "higgs_audio" ->
            PyDict.get (shadow_key model_key)
              (_model_cache (free_memory_before_load env model_type engine
                               device host s0)) = None).
  { intros ->. specialize (Hsh eq_refl).
    destruct (PyDict.get _ (_model_cache (free_memory_before_load _ _ _ _ _ _)))
      as [v|] eqn:E; auto.
    apply free_memory_before_load_shrink in E. congruence. }
  assert (Hfc : factory_calls (free_memory_before_load env model_type engine
                                 device host s0) = factory_calls s0).
  { unfold free_memory_before_load. destruct (_ && _); auto.
    destruct host as [|calls|calls];
      repeat first
        [ rewrite (proj1 (proj2 (proj2 (proj2 (clear_other_engines_quiet _ _ _)))))
        | match goal with
          | |- context [factory_calls (run_calls ?c ?x)] =>
              let H := fresh in
              destruct (run_calls_frame c x) as (_ & _ & _ & _ & H & _);
              rewrite H; clear H
          end ]; auto. }
  revert Hsh' Hfc.
  generalize (free_memory_before_load env model_type engine device host s0) as s'.
  intros s' Hsh' Hfc. clear Hg.
  destruct (f device) as [m|]; [|discriminate].
  destruct (calculate_model_memory m) as [memory_size|];
    destruct m as [inst|]; cbn -[calculate_model_memory];
    try discriminate; case_init; try discriminate;
    apply init_returns in Einit; destruct Einit as (_ & _ & _ & _ & _ & Hvalid);
    intros H; inversion H; subst; clear H; simpl;
    (split; [|lia]); unfold served; simpl;
    (split; [apply get_set_same|]); rewrite Nat.eqb_refl;
    (split; [exact Hvalid|]); intros He;
    rewrite get_set_other by apply shadow_key_neq; auto.
Qed.

Lemma load_model_served env f model_key model_type engine device host s h s1 :
  load_model env f model_key model_type engine device false host s = (Ok h, s1) ->
  served model_key engine h s1 /\ factory_calls s1 <= factory_calls s + 1.
Proof.
  unfold load_model.
  destruct (if String.eqb engine "higgs_audio" then _ else _) as [wrapper|] eqn:Esh.
  - intros H; inversion H; subst; clear H.
    destruct (String.eqb_spec engine "higgs_audio") as [->|]; [|discriminate].
    destruct (resurrect_spec model_key h s) as (Hc & Hv & _).
    destruct (resurrect_quiet model_key h s) as (_ & _ & _ & Hfc & _).
    split; [|lia]. split; [|split]; auto.
    + rewrite Hc. apply get_set_same.
    + intros _. rewrite Hc, get_set_other by apply shadow_key_neq.
      apply get_remove_same.
  - assert (Hsh : engine = "higgs_audio" ->
              PyDict.get (shadow_key model_key) (_model_cache s) = None).
    { intros ->. now rewrite String.eqb_refl in Esh. }
    destruct (PyDict.get model_key (_model_cache s)) as [wrapper|] eqn:Eget;
      [|now apply create_model_served].
    cbn [negb].
    destruct (_is_valid_for_reuse (heap s wrapper)) eqn:Ev; cbn [negb].
    + intros H; inversion H; subst; clear H.
      destruct (_ && _).
      * split.
        -- split; [|split].
           ++ now rewrite (frame_cache _ _ (model_load_frame _ _ _)).
           ++ now rewrite model_load_valid.
           ++ now rewrite (frame_cache _ _ (model_load_frame _ _ _)).
        -- destruct (model_load_quiet h (Some device) s) as (_ & _ & _ & -> & _). lia.
      * split; [split; auto | lia].
    + destruct (String.eqb_spec engine "higgs_audio") as [->|Hne].
      * intros H; inversion H; subst; clear H.
        destruct (reinitialize_in_place_quiet h device s) as (_ & _ & _ & Hfc & _).
        split; [|lia]. split; [|split].
        -- now rewrite reinitialize_in_place_cache.
        -- unfold reinitialize_in_place. simpl. now rewrite Nat.eqb_refl.
        -- now rewrite reinitialize_in_place_cache.
      * intros H. apply create_model_served in H; [|congruence].
        destruct (remove_model_quiet model_key s) as (_ & _ & _ & Hfc & _).
        rewrite Hfc in H. exact H.
Qed.

(** C1: when a call of [load_model] without [force_reload] returns a
    wrapper, the same call made again right away returns the same wrapper
    object and does not invoke the factory; the two calls together invoke
    it at most once. What the host does during either call is arbitrary. *)
Theorem load_model_twice (env : Env) (f : Factory)
    (model_key model_type engine device : string) (host host' : FreeMemory)
    (s s1 : State) (h : wid) :
  load_model env f model_key model_type engine device false host s = (Ok h, s1) ->
  let r := load_model env f model_key model_type engine device false host' s1 in
  fst r = Ok h
  /\ factory_calls (snd r) = factory_calls s1
  /\ factory_calls (snd r) <= factory_calls s + 1.
Proof.
  intros H r. apply load_model_served in H as [(Hget & Hv & Hsh) Hfc].
  subst r. unfold load_model.
  assert (E : (if String.eqb engine "higgs_audio"
               then PyDict.get (shadow_key model_key) (_model_cache s1)
               else None) = None).
  { destruct (String.eqb_spec engine "higgs_audio"); auto. }
  rewrite E, Hget, Hv. cbn [negb fst snd].
  assert (Hfc' : factory_calls
                   (if negb (String.eqb (current_device (heap s1 h)) device)
                       && negb (String.eqb device "auto")
                    then model_load h (Some device) s1 else s1)
                 = factory_calls s1).
  { destruct (_ && _); auto.
    now destruct (model_load_quiet h (Some device) s1) as (_ & _ & _ & -> & _). }
  rewrite Hfc'. repeat split; auto.
Qed.

Lemma load_model_twice_witness :
  let f := Sample.factory_of Sample.torch_module in
  let r1 := load_model Sample.hosted f "k" "tts" "chatterbox" "cuda" false
              fm_unavailable initial_state in
  let r2 := load_model Sample.hosted f "k" "tts" "chatterbox" "cuda" false
              fm_unavailable (snd r1) in
  fst r1 = Ok 0 /\ fst r2 = Ok 0 /\ factory_calls (snd r2) = 1.
Proof.
  intros f r1 r2. split; [reflexivity|].
  pose proof (load_model_twice Sample.hosted f "k" "tts" "chatterbox" "cuda"
                fm_unavailable fm_unavailable initial_state (snd r1) 0 eq_refl) as H.
  cbv zeta in H. destruct H as (H1 & H2 & _). split; [exact H1 | exact H2].
Defined.

(** ** Active entries and shadow entries *)

(** A caller of [load_model] uses keys that do not begin with the shadow
    prefix, and always the engine [E] assigns to the key. *)
Definition well_keyed (E : string -> string) (op : Op) : Prop :=
  match op with
  | op_load_model _ model_key _ engine _ _ _ =>
      String.prefix "_shadow_" model_key = false /\ engine = E model_key
  | _ => True
  end.

(** The invariant behind disjointness: the cache refers to wrappers that
    exist; under a key without the prefix sits a wrapper of the key's
    engine; under its shadow key sits a Higgs Audio wrapper, only when the
    key's engine is Higgs Audio and the key itself is absent. *)
Definition cache_invariant (E : string -> string) (s : State) : Prop :=
  (forall k i, PyDict.get k (_model_cache s) = Some i -> i < next_wrapper s)
  /\ forall k, String.prefix "_shadow_" k = false ->
       (forall i, PyDict.get k (_model_cache s) = Some i ->
                  ModelInfo.engine (model_info (heap s i)) = E k)
       /\ (forall i, PyDict.get (shadow_key k) (_model_cache s) = Some i ->
                     ModelInfo.engine (model_info (heap s i)) = "higgs_audio"
                     /\ E k = "higgs_audio"
                     /\ PyDict.get k (_model_cache s) = None).

Lemma get_remove_None {V} k k0 (d : PyDict.t V) :
  PyDict.get k d = None -> PyDict.get k (PyDict.remove k0 d) = None.
Proof.
  intros H. destruct (PyDict.get k (PyDict.remove k0 d)) eqn:E; auto.
  apply get_remove_Some in E. congruence.
Qed.

Lemma cache_invariant_initial E : cache_invariant E initial_state.
Proof. split; [|split]; simpl; intros; discriminate. Qed.

(** Steps that keep the cache and every existing wrapper's [model_info]. *)
Lemma cache_invariant_same_cache E s s' :
  cache_invariant E s ->
  grows s s' -> _model_cache s' = _model_cache s ->
  cache_invariant E s'.
Proof.
  intros [Hwf Hk] (Hn & _ & Hf) Hc.
  assert (Hinfo : forall k i, PyDict.get k (_model_cache s) = Some i ->
            model_info (heap s' i) = model_info (heap s i)).
  { intros k i Hg. destruct (Hf i (Hwf k i Hg)) as (_ & H & _). exact H. }
  split.
  - intros k i Hg. rewrite Hc in Hg. apply Hwf in Hg. lia.
  - intros k Hp. rewrite Hc. destruct (Hk k Hp) as [Ha Hb]. split.
    + intros i Hg. rewrite (Hinfo k i Hg). auto.
    + intros i Hg. rewrite (Hinfo _ i Hg). auto.
Qed.

Lemma cache_invariant_pop E s k0 :
  cache_invariant E s ->
  cache_invariant E (set_cache (PyDict.remove k0 (_model_cache s)) s).
Proof.
  intros [Hwf Hk]. split; simpl.
  - intros k i Hg. apply get_remove_Some in Hg. eauto.
  - intros k Hp. destruct (Hk k Hp) as [Ha Hb]. split.
    + intros i Hg. apply get_remove_Some in Hg. auto.
    + intros i Hg. apply get_remove_Some in Hg.
      destruct (Hb i Hg) as (H1 & H2 & H3). repeat split; auto.
      now apply get_remove_None.
Qed.

Lemma cache_invariant_remove_model E key0 s :
  cache_invariant E s -> cache_invariant E (snd (remove_model key0 s)).
Proof.
  intros Hinv. unfold remove_model.
  destruct (PyDict.get key0 (_model_cache s)) as [i0|] eqn:E0; auto.
  destruct (String.eqb_spec (ModelInfo.engine (model_info (heap s i0))) "higgs_audio")
    as [He|He]; cbn [snd].
  - destruct Hinv as [Hwf Hk]. split; simpl.
    + intros k i Hg.
      destruct (string_dec k (shadow_key key0)) as [->|Hne].
      * rewrite get_set_same in Hg. inversion Hg; subst. eauto.
      * rewrite get_set_other in Hg by auto. apply get_remove_Some in Hg. eauto.
    + intros k Hp. destruct (Hk k Hp) as [Ha Hb].
      pose proof (not_shadow_key k key0 Hp) as Hne. split.
      * intros i Hg. rewrite get_set_other in Hg by auto.
        apply get_remove_Some in Hg. auto.
      * intros i Hg.
        rewrite (get_set_other _ k) by auto.
        destruct (string_dec k key0) as [->|Hkk].
        -- rewrite get_set_same in Hg. inversion Hg; subst.
           repeat split; auto.
           ++ rewrite <- He. symmetry. auto.
           ++ apply get_remove_same.
        -- rewrite get_set_other in Hg
             by (intros Hs; apply shadow_key_inj in Hs; congruence).
           apply get_remove_Some in Hg.
           destruct (Hb i Hg) as (H1 & H2 & H3). repeat split; auto.
           now apply get_remove_None.
  - apply cache_invariant_same_cache
      with (s := set_cache (PyDict.remove key0 (_model_cache s)) s).
    + now apply cache_invariant_pop.
    + apply grows_of_frame, model_unload_frame.
    + apply frame_cache, model_unload_frame.
Qed.

Lemma cache_invariant_remove_models E keys : forall s,
  cache_invariant E s -> cache_invariant E (remove_models keys s).
Proof.
  unfold remove_models.
  induction keys as [|k r IH]; intros s H; simpl; auto.
  apply IH, cache_invariant_remove_model, H.
Qed.

Lemma cache_invariant_free_memory E env model_type engine device host s :
  cache_invariant E s ->
  cache_invariant E (free_memory_before_load env model_type engine device host s).
Proof.
  intros H. unfold free_memory_before_load. destruct (_ && _); auto.
  assert (Hcalls : forall calls, cache_invariant E (run_calls calls s)).
  { intros calls. apply cache_invariant_same_cache with (s := s); auto.
    - apply grows_of_frame, run_calls_frame.
    - apply frame_cache, run_calls_frame. }
  assert (Hclear : forall s0, cache_invariant E s0 ->
            cache_invariant E (clear_other_engines model_type engine s0)).
  { intros s0 H0. unfold clear_other_engines. destruct (_ && _); auto.
    now apply cache_invariant_remove_models. }
  destruct host as [|calls|calls]; auto.
Qed.

Lemma cache_invariant_resurrect E model_key wrapper s :
  cache_invariant E s ->
  String.prefix "_shadow_" model_key = false ->
  PyDict.get (shadow_key model_key) (_model_cache s) = Some wrapper ->
  cache_invariant E (resurrect model_key wrapper s).
Proof.
  intros [Hwf Hk] Hp Hsh.
  destruct (Hk model_key Hp) as [_ Hb]. destruct (Hb wrapper Hsh) as (He & HE & Hnone).
  destruct (resurrect_spec model_key wrapper s) as (Hc & _ & _).
  destruct (resurrect_quiet model_key wrapper s) as (_ & Hn & _ & _ & Hf).
  assert (Hinfo : forall i, ModelInfo.engine (model_info (heap (resurrect model_key wrapper s) i))
                            = ModelInfo.engine (model_info (heap s i))).
  { intros i. destruct (Hf i) as (_ & -> & _). reflexivity. }
  split.
  - intros k i Hg. rewrite Hc in Hg. rewrite Hn.
    destruct (string_dec k model_key) as [->|Hne].
    + rewrite get_set_same in Hg. inversion Hg; subst. eauto.
    + rewrite get_set_other in Hg by auto. apply get_remove_Some in Hg. eauto.
  - intros k Hpk. rewrite Hc. destruct (Hk k Hpk) as [Ha' Hb']. split.
    + intros i Hg. rewrite Hinfo.
      destruct (string_dec k model_key) as [->|Hne].
      * rewrite get_set_same in Hg. inversion Hg; subst. congruence.
      * rewrite get_set_other in Hg by auto. apply get_remove_Some in Hg. auto.
    + intros i Hg. rewrite Hinfo.
      rewrite get_set_other in Hg
        by (intros Hs; symmetry in Hs; revert Hs; now apply not_shadow_key).
      destruct (string_dec k model_key) as [->|Hne].
      * now rewrite get_remove_same in Hg.
      * apply get_remove_Some in Hg. destruct (Hb' i Hg) as (H1 & H2 & H3).
        repeat split; auto.
        rewrite get_set_other by auto. now apply get_remove_None.
Qed.

Lemma cache_invariant_ext E s1 s2 :
  _model_cache s2 = _model_cache s1 -> next_wrapper s2 = next_wrapper s1 ->
  heap s2 = heap s1 -> cache_invariant E s1 -> cache_invariant E s2.
Proof.
  intros Hc Hn Hh [Hwf Hk]. unfold cache_invariant.
  rewrite Hc, Hn, Hh. split; auto.
Qed.

Lemma cache_invariant_insert E s model_key w :
  cache_invariant E s ->
  String.prefix "_shadow_" model_key = false ->
  ModelInfo.engine (model_info w) = E model_key ->
  PyDict.get (shadow_key model_key) (_model_cache s) = None ->
  cache_invariant E
    (set_cache (PyDict.set model_key (next_wrapper s) (_model_cache s))
       (snd (new_wrapper w s))).
Proof.
  intros [Hwf Hk] Hp He Hsh.
  assert (Hold : forall k i, PyDict.get k (_model_cache s) = Some i ->
            Nat.eqb i (next_wrapper s) = false).
  { intros k i Hg. apply Hwf in Hg. apply Nat.eqb_neq. lia. }
  split; simpl.
  - intros k i Hg. destruct (string_dec k model_key) as [->|Hne].
    + rewrite get_set_same in Hg. inversion Hg. lia.
    + rewrite get_set_other in Hg by auto. apply Hwf in Hg. lia.
  - intros k Hpk. destruct (Hk k Hpk) as [Ha Hb]. split.
    + intros i Hg. destruct (string_dec k model_key) as [->|Hne].
      * rewrite get_set_same in Hg. inversion Hg; subst.
        now rewrite Nat.eqb_refl.
      * rewrite get_set_other in Hg by auto.
        rewrite (Hold k i Hg). auto.
    + intros i Hg.
      rewrite get_set_other in Hg
        by (intros Hs; symmetry in Hs; revert Hs; now apply not_shadow_key).
      rewrite (Hold _ i Hg). destruct (Hb i Hg) as (H1 & H2 & H3).
      repeat split; auto.
      destruct (string_dec k model_key) as [->|Hne]; [congruence|].
      now rewrite get_set_other.
Qed.

Lemma cache_invariant_create E env f model_key model_type engine device host s0 :
  cache_invariant E s0 ->
  String.prefix "_shadow_" model_key = false ->
  engine = E model_key ->
  (engine = "higgs_audio" ->
   PyDict.get (shadow_key model_key) (_model_cache s0) = None) ->
  cache_invariant E
    (snd (create_model env f model_key model_type engine device host s0)).
Proof.
  intros Hinv Hp HE Hsh. unfold create_model.
  pose proof (cache_invariant_free_memory E env model_type engine device host s0 Hinv)
    as Hinv'.
  assert (Hsh' : PyDict.get (shadow_key model_key)
                   (_model_cache (free_memory_before_load env model_type engine
                                    device host s0)) = None).
  { destruct (PyDict.get _ (_model_cache (free_memory_before_load _ _ _ _ _ _)))
      as [v|] eqn:Eg; auto.
    destruct (string_dec engine "higgs_audio") as [->|Hne].
    - apply free_memory_before_load_shrink in Eg. rewrite Hsh in Eg; congruence.
    - destruct Hinv' as [_ Hk]. destruct (Hk model_key Hp) as [_ Hb].
      destruct (Hb v Eg) as (_ & H2 & _). congruence. }
  revert Hinv' Hsh'.
  generalize (free_memory_before_load env model_type engine device host s0) as s'.
  intros s' Hinv' Hsh'.
  destruct (f device) as [m|];
    [|cbn [snd]; now apply (cache_invariant_ext E s')].
  destruct (calculate_model_memory m) as [memory_size|];
    destruct m as [inst|]; cbn -[calculate_model_memory];
    try (now apply (cache_invariant_ext E s'));
    case_init; cbn [snd]; try (now apply (cache_invariant_ext E s'));
    apply init_returns in Einit; destruct Einit as (_ & Hinfo & _).
  - apply (cache_invariant_insert E
             (snd (new_object inst (count_factory_call s'))) model_key); auto.
    now rewrite Hinfo.
  - apply (cache_invariant_insert E (count_factory_call s') model_key); auto.
    now rewrite Hinfo.
Qed.

Lemma cache_invariant_load_model E env f model_key model_type engine device
    force_reload host s :
  cache_invariant E s ->
  String.prefix "_shadow_" model_key = false ->
  engine = E model_key ->
  cache_invariant E
    (snd (load_model env f model_key model_type engine device force_reload host s)).
Proof.
  intros Hinv Hp HE. unfold load_model.
  destruct (if String.eqb engine "higgs_audio" then _ else _) as [wrapper|] eqn:Esh.
  - destruct (String.eqb engine "higgs_audio"); [|discriminate].
    now apply cache_invariant_resurrect.
  - assert (Hsh : engine = "higgs_audio" ->
              PyDict.get (shadow_key model_key) (_model_cache s) = None).
    { intros Heq. rewrite Heq in Esh. exact Esh. }
    assert (Hreinit : forall wrapper,
              cache_invariant E (reinitialize_in_place wrapper device s)).
    { intros wrapper. apply cache_invariant_same_cache with (s := s); auto.
      - apply grows_of_quiet, reinitialize_in_place_quiet.
      - apply reinitialize_in_place_cache. }
    assert (Hrecreate :
              String.eqb engine "higgs_audio" = false ->
              cache_invariant E
                (snd (create_model env f model_key model_type engine device host
                        (snd (remove_model model_key s))))).
    { intros Hne. apply cache_invariant_create; auto.
      - now apply cache_invariant_remove_model.
      - intros Heq. rewrite Heq in Hne. discriminate. }
    destruct (PyDict.get model_key (_model_cache s)) as [wrapper|];
      [|now apply cache_invariant_create].
    destruct (negb force_reload).
    + destruct (negb _).
      * destruct (String.eqb engine "higgs_audio") eqn:Ee; cbn [snd]; auto.
      * cbn [snd]. destruct (_ && _); auto.
        apply cache_invariant_same_cache with (s := s); auto.
        -- apply grows_of_quiet, model_load_quiet.
        -- apply frame_cache, model_load_frame.
    + destruct (String.eqb engine "higgs_audio") eqn:Ee; cbn [snd]; auto.
Qed.

Lemma cache_invariant_run_op E env op s :
  well_keyed E op -> cache_invariant E s -> cache_invariant E (run_op env op s).
Proof.
  destruct op as [f k t e d fr host| | | | |self c]; simpl; intros Hw Hinv; auto.
  - destruct Hw. now apply cache_invariant_load_model.
  - now apply cache_invariant_remove_model.
  - now apply cache_invariant_remove_models.
  - apply cache_invariant_same_cache with (s := s); auto.
    + apply grows_of_frame, run_call_frame.
    + apply frame_cache, run_call_frame.
Qed.

Lemma cache_invariant_run E env ops : forall s,
  Forall (well_keyed E) ops -> cache_invariant E s ->
  cache_invariant E (run env ops s).
Proof.
  unfold run. induction ops as [|op r IH]; intros s Hw Hinv; simpl; auto.
  inversion Hw; subst. apply IH; auto. now apply cache_invariant_run_op.
Qed.

(** C3, as the code has it: active and shadow entries share one dictionary
    and a shadow entry is told apart by its key's prefix alone. When the
    callers of [load_model] use keys that do not begin with ["_shadow_"]
    and always the same engine for a key, then in every state reached by
    [load_model], [remove_model], [clear_cache] and calls of wrapper
    methods, no key without the prefix is in the cache together with its
    shadow key. *)
Theorem shadow_storage_disjoint (env : Env) (E : string -> string)
    (ops : list Op) :
  Forall (well_keyed E) ops ->
  forall k, String.prefix "_shadow_" k = false ->
    let cache := _model_cache (run env ops initial_state) in
    PyDict.contains k cache && PyDict.contains (shadow_key k) cache = false.
Proof.
  intros Hw k Hp cache.
  destruct (cache_invariant_run E env ops initial_state Hw
              (cache_invariant_initial E)) as [_ Hk].
  destruct (Hk k Hp) as [_ Hb]. fold cache in Hb.
  unfold PyDict.contains.
  destruct (PyDict.get (shadow_key k) cache) as [i|] eqn:Es.
  - destruct (Hb i eq_refl) as (_ & _ & ->). reflexivity.
  - now rewrite andb_false_r.
Qed.

Lemma shadow_storage_disjoint_witness :
  let ops := [Sample.load Sample.higgs_engine "K" "higgs_audio" "cuda";
              op_clear_cache None None;
              Sample.load Sample.higgs_engine "K" "higgs_audio" "cuda";
              op_remove_model "K"] in
  let cache := _model_cache (run Sample.standalone ops initial_state) in
  Forall (well_keyed (fun _ => "higgs_audio")) ops
  /\ String.prefix "_shadow_" "K" = false
  /\ PyDict.contains "K" cache && PyDict.contains (shadow_key "K") cache = false.
Proof.
  intros ops cache.
  assert (Hw : Forall (well_keyed (fun _ => "higgs_audio")) ops).
  { subst ops. repeat constructor. }
  split; [exact Hw|]. split; [reflexivity|].
  apply (shadow_storage_disjoint Sample.standalone (fun _ => "higgs_audio") ops Hw
           "K" eq_refl).
Defined.

(** C3 fails as stated: a key may itself begin with the shadow prefix.
    Both keys below are always used with the same engine; afterwards ["K"]
    is in the cache and so is the shadow key of ["K"], and the next
    [load_model] for ["K"] takes the wrapper stored there (wrapper 1) for
    the quarantined wrapper of ["K"]. *)
Lemma shadow_key_collides_with_key :
  let higgs model_key :=
    load_model Sample.standalone (Sample.factory_of Sample.higgs_engine)
      model_key "tts" "higgs_audio" "cuda" false fm_unavailable in
  let s := snd (higgs "_shadow_K" (snd (higgs "K" initial_state))) in
  PyDict.get "K" (_model_cache s) = Some 0
  /\ PyDict.contains "K" (_model_cache s) = true
  /\ PyDict.contains (shadow_key "K") (_model_cache s) = true
  /\ fst (higgs "K" s) = Ok 1.
Proof. repeat split. Qed.

(** Without any prefixed key from a caller, two [clear_cache] calls push
    a shadow entry one level down, and the cache then holds a shadow key
    together with the shadow key of that key. *)
Lemma shadow_of_shadow :
  let s := run Sample.standalone
             [Sample.load Sample.higgs_engine "K" "higgs_audio" "cuda";
              op_clear_cache None None; op_clear_cache None None;
              Sample.load Sample.higgs_engine "K" "higgs_audio" "cuda";
              op_remove_model "K"] initial_state in
  _model_cache s = [(shadow_key (shadow_key "K"), 0); (shadow_key "K", 1)].
Proof. reflexivity. Qed.

(** ** Shadow storage keeps a Higgs Audio model, unless its slot is taken *)

(** [remove_model] on a Higgs Audio wrapper calls no method of the
    wrapper: every wrapper and every instance is as before, and the
    wrapper is stored under the shadow key. *)
Lemma remove_model_higgs_keeps model_key s i :
  PyDict.get model_key (_model_cache s) = Some i ->
  ModelInfo.engine (model_info (heap s i)) = "higgs_audio" ->
  let s' := snd (remove_model model_key s) in
  heap s' = heap s /\ objects s' = objects s
  /\ PyDict.get (shadow_key model_key) (_model_cache s') = Some i.
Proof.
  intros Hget He s'. subst s'.
  rewrite (remove_model_higgs model_key s i Hget He). simpl.
  repeat split. apply get_set_same.
Qed.

(** C6 does not hold of the code: the shadow slot is written without a
    look at what it holds, and [remove_model] and [clear_cache] treat a
    shadow entry as any other entry. Below, the Higgs Audio wrapper 0 is
    pushed to ["_shadow__shadow_K"] by two [clear_cache] calls, wrapper 1
    is created for the same key, and two [remove_model] calls then store
    wrapper 1 over wrapper 0: the manager no longer refers to wrapper 0 or
    to its instance. The same happens with [clear_cache] calls alone when
    the two wrappers differ in model type. *)
Theorem shadow_entry_overwritten :
  let higgs model_type :=
    op_load_model (Sample.factory_of Sample.higgs_engine) "K" model_type
      "higgs_audio" "cuda" false fm_unavailable in
  let s := run Sample.standalone
             [higgs "tts"; op_clear_cache None None; op_clear_cache None None;
              higgs "tts"] initial_state in
  let s' := run Sample.standalone
              [op_remove_model "K"; op_remove_model "_shadow_K"] s in
  let t := run Sample.standalone
             [higgs "tts"; op_clear_cache None None; op_clear_cache None None;
              higgs "vc"] initial_state in
  let t' := run Sample.standalone
              [op_clear_cache (Some "vc") None; op_clear_cache (Some "vc") None] t in
  ModelInfo.engine (model_info (heap s 0)) = "higgs_audio"
  /\ _model_cache s = [("_shadow__shadow_K", 0); ("K", 1)]
  /\ _model_cache s' = [("_shadow__shadow_K", 1)]
  /\ _model_cache t = [("_shadow__shadow_K", 0); ("K", 1)]
  /\ _model_cache t' = [("_shadow__shadow_K", 1)].
Proof. repeat split. Qed.

(** * Further properties of the wrapper *)

(** ** Eviction and reload *)

Lemma upd_wrapper_heap_same self f s :
  heap (upd_wrapper self f s) self = f (heap s self).
Proof. simpl. now rewrite Nat.eqb_refl. Qed.

Lemma upd_wrapper_heap_other self f s j :
  j <> self -> heap (upd_wrapper self f s) j = heap s j.
Proof. intros H. simpl. now apply Nat.eqb_neq in H as ->. Qed.

(** The state [partially_unload] leaves when it marks the wrapper unloaded. *)
Definition marked_unloaded (self : wid) (s : State) : State :=
  upd_wrapper self (set_is_loaded_on_gpu false)
    (upd_wrapper self (set_current_device "cpu") s).

Lemma partially_unload_whole_object self device memory_to_free s o to_raises :
  _is_loaded_on_gpu (heap s self) = true ->
  w_model (heap s self) = Some o ->
  inst_to (objects s o) = Some to_raises ->
  partially_unload self device memory_to_free s
  = (_memory_size (heap s self), marked_unloaded self s).
Proof.
  intros Hl Hm Hto. unfold partially_unload, _model_ref.
  rewrite Hl, Hm. simpl. rewrite Hto. now destruct (to_raises "cpu").
Qed.

Lemma partially_unload_cases self device memory_to_free s :
  snd (partially_unload self device memory_to_free s) = marked_unloaded self s
  \/ (snd (partially_unload self device memory_to_free s) = s
      /\ forall device' memory_to_free',
           (fst (partially_unload self device' memory_to_free' s) <= 0)%Z
           /\ snd (partially_unload self device' memory_to_free' s) = s).
Proof.
  unfold partially_unload, marked_unloaded.
  destruct (negb (_is_loaded_on_gpu (heap s self)));
    [right; simpl; repeat split; lia|].
  destruct (_model_ref s (heap s self)) as [m|];
    [|right; simpl; repeat split; lia].
  destruct (inst_to m) as [to_raises|].
  - left. now destruct (to_raises "cpu").
  - destruct (inst_dict m) as [attrs|]; [|right; simpl; repeat split; lia].
    destruct (unload_components attrs 0 >? 0)%Z eqn:Hf; [now left|].
    right. simpl. repeat split.
    rewrite Z.gtb_ltb in Hf. now apply Z.ltb_ge in Hf.
Qed.

(** A second [partially_unload] right after a first one frees nothing (it
    returns no positive amount) and changes nothing, whatever the wrapper,
    its instance and the arguments of the two calls. *)
Theorem partially_unload_twice (self : wid) (device device' : string)
    (memory_to_free memory_to_free' : Z) (s : State) :
  let s1 := snd (partially_unload self device memory_to_free s) in
  let r2 := partially_unload self device' memory_to_free' s1 in
  (fst r2 <= 0)%Z /\ snd r2 = s1.
Proof.
  cbv zeta.
  destruct (partially_unload_cases self device memory_to_free s) as [H|[H1 H2]].
  - rewrite H. unfold partially_unload, marked_unloaded.
    rewrite upd_wrapper_heap_same. simpl. split; [lia | reflexivity].
  - rewrite H1. apply H2.
Qed.

(** For a loaded wrapper whose instance has [to], [model_unload] always
    leaves the wrapper unloaded on ['cpu'], however little was asked for;
    it answers [True] when the wrapper's size is positive or the request is
    below the size, so the full unload of a wrapper of size 0 answers
    [False] although the wrapper was unloaded. *)
Theorem model_unload_whole_object (self : wid) (memory_to_free : option Z)
    (unpatch_weights : bool) (s : State) (o : oid) (to_raises : string -> bool) :
  _is_loaded_on_gpu (heap s self) = true ->
  w_model (heap s self) = Some o ->
  inst_to (objects s o) = Some to_raises ->
  let r := model_unload self memory_to_free unpatch_weights s in
  snd r = marked_unloaded self s
  /\ _is_loaded_on_gpu (heap (snd r) self) = false
  /\ current_device (heap (snd r) self) = "cpu"
  /\ fst r = ((0 <? _memory_size (heap s self))%Z
              || match memory_to_free with
                 | Some m => (m <? _memory_size (heap s self))%Z
                 | None => false
                 end).
Proof.
  intros Hl Hm Hto r. subst r. unfold model_unload, loaded_size.
  assert (Hpu : forall m, partially_unload self "cpu" m s
                          = (_memory_size (heap s self), marked_unloaded self s)).
  { intros m. now apply (partially_unload_whole_object self "cpu" m s o to_raises). }
  rewrite Hl. cbn [fst snd].
  assert (Hs : _is_loaded_on_gpu (heap (marked_unloaded self s) self) = false
               /\ current_device (heap (marked_unloaded self s) self) = "cpu").
  { unfold marked_unloaded. rewrite upd_wrapper_heap_same. simpl.
    now rewrite Nat.eqb_refl. }
  destruct Hs as [Hs1 Hs2].
  destruct memory_to_free as [m|].
  - destruct (m <? _memory_size (heap s self))%Z eqn:E; rewrite !Hpu; cbn [fst snd].
    + repeat split; auto. rewrite orb_true_r.
      apply Z.ltb_lt in E. apply Z.geb_le. lia.
    + repeat split; auto. rewrite orb_false_r. apply Z.gtb_ltb.
  - rewrite !Hpu. cbn [fst snd]. repeat split; auto.
    rewrite orb_false_r. apply Z.gtb_ltb.
Qed.

Lemma model_unload_whole_object_witness :
  let s := run Sample.standalone
             [Sample.load Sample.torch_module "k" "chatterbox" "cuda"]
             initial_state in
  _is_loaded_on_gpu (heap s 0) = true
  /\ fst (model_unload 0 (Some 1%Z) true s) = true
  /\ _is_loaded_on_gpu (heap (snd (model_unload 0 (Some 1%Z) true s)) 0) = false.
Proof.
  intros s. split; [reflexivity|].
  pose proof (model_unload_whole_object 0 (Some 1%Z) true s 0 (fun _ => false)
                eq_refl eq_refl eq_refl) as H.
  cbv zeta in H. destruct H as (_ & H2 & _ & H4). split; [exact H4 | exact H2].
Defined.

(** Moving a loaded wrapper off the device and back to the device it was
    on leaves every wrapper with exactly the attributes it had, and the
    cache and the invalidation flag as they were, when the instance's [to]
    accepts that device. (Where the instance itself ends up is the
    instance's affair; the wrapper's record of it is what is restored.) *)
Theorem unload_then_load_restores (self : wid) (device : string)
    (memory_to_free : Z) (s : State) (o : oid) (to_raises : string -> bool) :
  _is_loaded_on_gpu (heap s self) = true ->
  w_model (heap s self) = Some o ->
  inst_to (objects s o) = Some to_raises ->
  to_raises device = false ->
  String.eqb device "" = false ->
  current_device (heap s self) = device ->
  let s1 := snd (partially_unload self "cpu" memory_to_free s) in
  let s2 := model_load self (Some device) s1 in
  (forall j, heap s2 j = heap s j)
  /\ _model_cache s2 = _model_cache s
  /\ flag s2 = flag s.
Proof.
  intros Hl Hm Hto Hd He Hc s1 s2. subst s1 s2.
  rewrite (partially_unload_whole_object self "cpu" _ s o to_raises Hl Hm Hto).
  cbn [snd]. unfold model_load, _model_ref, marked_unloaded.
  rewrite upd_wrapper_heap_same. simpl. rewrite Nat.eqb_refl. simpl.
  rewrite Hm. simpl. rewrite Hto, He, Hd. simpl.
  repeat split. intros j.
  destruct (Nat.eqb j self) eqn:E; auto.
  apply Nat.eqb_eq in E. subst j.
  destruct (heap s self) as [a b c d e g h i k]. simpl in *. subst. reflexivity.
Qed.

Lemma unload_then_load_restores_witness :
  let s := run Sample.standalone
             [Sample.load Sample.torch_module "k" "chatterbox" "cuda"]
             initial_state in
  let s2 := model_load 0 (Some "cuda") (snd (partially_unload 0 "cpu" 1%Z s)) in
  current_device (heap s 0) = "cuda" /\ heap s2 0 = heap s 0.
Proof.
  intros s s2. split; [reflexivity|].
  pose proof (unload_then_load_restores 0 "cuda" 1%Z s 0 (fun _ => false)
                eq_refl eq_refl eq_refl eq_refl eq_refl eq_refl) as H.
  cbv zeta in H. destruct H as (H1 & _). exact (H1 0).
Defined.

(** [partially_load] for a device other than ['cpu'] on an unloaded wrapper
    answers the wrapper's whole size whether or not the move worked: when
    the instance's [to] raises for the device, the state is unchanged (the
    wrapper stays unloaded) and the size is reported all the same. *)
Theorem partially_load_reports_size (self : wid) (device : string)
    (extra_memory : Z) (force_patch_weights : bool) (s : State) :
  _is_loaded_on_gpu (heap s self) = false ->
  String.eqb device "cpu" = false ->
  let r := partially_load self device extra_memory force_patch_weights s in
  fst r = _memory_size (heap s self)
  /\ (forall o to_raises,
         w_model (heap s self) = Some o ->
         inst_to (objects s o) = Some to_raises ->
         String.eqb device "" = false -> to_raises device = true ->
         snd r = s).
Proof.
  intros Hl Hd r. subst r. unfold partially_load. rewrite Hl, Hd. cbn [negb andb fst snd].
  split.
  - destruct (model_load_frame self (Some device) s) as (_ & _ & _ & _ & _ & Hf).
    destruct (Hf self) as (_ & _ & H & _). exact H.
  - intros o to_raises Hm Hto He Hr. unfold model_load, _model_ref.
    rewrite Hl, Hm. simpl. now rewrite Hto, He, Hr.
Qed.

Lemma partially_load_reports_size_witness :
  let s := snd (partially_unload 0 "cpu" 1%Z
             (run Sample.standalone
                [Sample.load Sample.stubborn_module "k" "chatterbox" "cuda"]
                initial_state)) in
  _is_loaded_on_gpu (heap s 0) = false
  /\ partially_load 0 "cuda" 0%Z false s = (4000%Z, s).
Proof.
  intros s. split; [reflexivity|].
  pose proof (partially_load_reports_size 0 "cuda" 0%Z false s eq_refl eq_refl) as H.
  cbv zeta in H. destruct H as (H1 & H2).
  specialize (H2 0 (fun _ => true) eq_refl eq_refl eq_refl eq_refl).
  rewrite (surjective_pairing (partially_load 0 "cuda" 0%Z false s)).
  rewrite H1, H2. reflexivity.
Defined.

(** A composite instance (no [to], a [__dict__]) of which no component can
    be moved stays marked as loaded: [partially_unload] returns 0 and
    changes nothing, unlike the whole-object case, where a failed move is
    still counted as an eviction. *)
Theorem partially_unload_composite_all_fail (self : wid) (device : string)
    (memory_to_free : Z) (s : State) (o : oid)
    (attrs : list (string * Component)) :
  w_model (heap s self) = Some o ->
  inst_to (objects s o) = None ->
  inst_dict (objects s o) = Some attrs ->
  (forall name c to_raises, In (name, c) attrs ->
     comp_to c = Some to_raises -> to_raises "cpu" = true) ->
  partially_unload self device memory_to_free s = (0%Z, s).
Proof.
  intros Hm Hto Hd Hall.
  assert (Hz : forall acc, unload_components attrs acc = acc).
  { clear Hd. induction attrs as [|[name c] r IH]; intros acc; simpl; auto.
    assert (Hr : forall acc', unload_components r acc' = acc').
    { apply IH. intros n c' t Hin. apply (Hall n c' t). now right. }
    destruct (comp_to c) as [t|] eqn:Et; auto.
    destruct (comp_parameters c); auto.
    rewrite (Hall name c t (or_introl eq_refl) Et). auto. }
  unfold partially_unload, _model_ref.
  destruct (_is_loaded_on_gpu (heap s self)); simpl; auto.
  rewrite Hm. simpl. rewrite Hto, Hd, Hz. reflexivity.
Qed.

Lemma partially_unload_composite_all_fail_witness :
  let broken := {| comp_to := Some (fun _ => true);
                   comp_parameters := Some (params [(1000, 4)%Z]) |} in
  let composite := {| inst_to := None; inst_parameters := None;
                      inst_dict := Some [("t3", broken); ("s3gen", broken)];
                      cuda_graphs_initialized := None; inst_weakref := true |} in
  let s := run Sample.standalone
             [Sample.load composite "k" "chatterbox" "cuda"] initial_state in
  _memory_size (heap s 0) = 8000%Z
  /\ partially_unload 0 "cpu" 8000%Z s = (0%Z, s)
  /\ _is_loaded_on_gpu (heap s 0) = true.
Proof.
  intros broken composite s. split; [reflexivity|]. split; [|reflexivity].
  apply (partially_unload_composite_all_fail 0 "cpu" 8000%Z s 0
           [("t3", broken); ("s3gen", broken)] eq_refl eq_refl eq_refl).
  intros name c t [H|[H|[]]] Ht; inversion H; subst; simpl in Ht;
    inversion Ht; reflexivity.
Defined.

(** ** Invalidation *)

(** [detach] marks the wrapper invalid for reuse and stamps the flag with
    the clock reading also when nothing was freed; from then on an engine
    cache is valid exactly when its timestamp is later than that reading (a
    cache stamped with the same reading is stale); the validity of every
    other wrapper is as before. *)
Theorem detach_invalidates (self : wid) (unpatch_all : bool) (now : Q) (s : State) :
  let s' := detach self unpatch_all now s in
  _is_valid_for_reuse (heap s' self) = false
  /\ (forall cache_timestamp,
         is_engine_cache_valid cache_timestamp s' = true
         <-> (now < cache_timestamp)%Q)
  /\ (forall j, j <> self ->
         _is_valid_for_reuse (heap s' j) = _is_valid_for_reuse (heap s j)).
Proof.
  cbv zeta. split; [|split].
  - unfold detach. destruct (partially_unload _ _ _ _) as [freed s1].
    unfold _clear_node_engine_caches. simpl. now rewrite Nat.eqb_refl.
  - intros ts. unfold is_engine_cache_valid. rewrite detach_flag.
    destruct (Qlt_le_dec now ts) as [H|H]; split; auto; try discriminate.
    intros H'. exfalso. apply (Qlt_not_le _ _ H' H).
  - intros j Hj. unfold detach.
    destruct (partially_unload_cases self "cpu" (_memory_size (heap s self)) s)
      as [H|[H _]];
      destruct (partially_unload self "cpu" (_memory_size (heap s self)) s)
        as [freed s1]; cbn [snd] in H; subst s1;
      unfold _clear_node_engine_caches, marked_unloaded; simpl;
      apply Nat.eqb_neq in Hj; now rewrite Hj.
Qed.

(** * Further properties of the manager *)

(** ** Removing and looking up *)

Lemma remove_model_cache model_key s :
  _model_cache (snd (remove_model model_key s))
  = match PyDict.get model_key (_model_cache s) with
    | Some i =>
        if String.eqb (ModelInfo.engine (model_info (heap s i))) "higgs_audio"
        then PyDict.set (shadow_key model_key) i
               (PyDict.remove model_key (_model_cache s))
        else PyDict.remove model_key (_model_cache s)
    | None => _model_cache s
    end.
Proof.
  unfold remove_model.
  destruct (PyDict.get model_key (_model_cache s)) as [i|]; auto.
  destruct (String.eqb _ _); cbn [snd]; auto.
  now rewrite (frame_cache _ _ (model_unload_frame _ _ _ _)).
Qed.

Lemma remove_model_get_None model_key s :
  PyDict.get model_key (_model_cache (snd (remove_model model_key s))) = None.
Proof.
  rewrite remove_model_cache.
  destruct (PyDict.get model_key (_model_cache s)) as [i|] eqn:E; auto.
  destruct (String.eqb _ _).
  - rewrite get_set_other by (intros H; symmetry in H; revert H; apply shadow_key_neq).
    apply get_remove_same.
  - apply get_remove_same.
Qed.

(** [remove_model] answers whether the key was in the cache; afterwards the
    key is not in the cache ([get_model] answers [None]), for a Higgs Audio
    wrapper as for any other; and removing the same key again answers
    [False] and changes nothing. *)
Theorem remove_model_removes (model_key : string) (s : State) :
  let r := remove_model model_key s in
  fst r = PyDict.contains model_key (_model_cache s)
  /\ fst (get_model model_key (snd r)) = None
  /\ remove_model model_key (snd r) = (false, snd r).
Proof.
  cbv zeta. split; [|split].
  - unfold remove_model, PyDict.contains.
    destruct (PyDict.get model_key (_model_cache s)); auto.
    now destruct (String.eqb _ _).
  - apply remove_model_get_None.
  - pose proof (remove_model_get_None model_key s) as H.
    unfold remove_model at 1. now rewrite H.
Qed.

(** ** What [load_model] returns *)

Lemma free_memory_before_load_counters env model_type engine device host s :
  let s' := free_memory_before_load env model_type engine device host s in
  next_wrapper s' = next_wrapper s /\ factory_calls s' = factory_calls s.
Proof.
  cbv zeta. unfold free_memory_before_load. destruct (_ && _); auto.
  assert (Hc : forall calls,
            next_wrapper (run_calls calls s) = next_wrapper s
            /\ factory_calls (run_calls calls s) = factory_calls s).
  { intros calls.
    destruct (run_calls_frame calls s) as (_ & H1 & _ & _ & H2 & _). auto. }
  assert (Hq : forall s0,
            next_wrapper (clear_other_engines model_type engine s0) = next_wrapper s0
            /\ factory_calls (clear_other_engines model_type engine s0)
               = factory_calls s0).
  { intros s0.
    destruct (clear_other_engines_quiet model_type engine s0)
      as (_ & H1 & _ & H2 & _). auto. }
  destruct host as [|calls|calls]; auto.
  destruct (Hq (run_calls calls s)) as [-> ->]. auto.
Qed.

(** The two tests a new wrapper has to pass in its constructor. *)
Definition device_accepted (env : Env) (device : string) : bool :=
  let device_name :=
    if String.eqb device "auto"
    then (if cuda_is_available env then "cuda" else "cpu")
    else device in
  String.eqb device_name "cuda" || torch_device_accepts env device_name.

Definition weakly_referable (m : option Instance) : bool :=
  match m with
  | Some model => inst_weakref model
  | None => true
  end.

Lemma init_accepted env m referent info :
  device_accepted env (ModelInfo.device info) = true ->
  weakly_referable referent = true ->
  exists w, __init__ env m referent info = Ok w.
Proof.
  unfold device_accepted, weakly_referable, __init__.
  intros Hd Hw.
  destruct (String.eqb _ "cuda"); simpl in Hd; [|rewrite Hd];
    (destruct referent as [model|]; [rewrite Hw|]); eauto.
Qed.

Lemma create_model_ok env f model_key model_type engine device host s0 m n :
  f device = returns m ->
  calculate_model_memory m = Ok n ->
  device_accepted env device = true ->
  weakly_referable m = true ->
  let r := create_model env f model_key model_type engine device host s0 in
  fst r = Ok (next_wrapper s0)
  /\ PyDict.get model_key (_model_cache (snd r)) = Some (next_wrapper s0)
  /\ factory_calls (snd r) = S (factory_calls s0)
  /\ _memory_size (heap (snd r) (next_wrapper s0)) = n
  /\ _is_valid_for_reuse (heap (snd r) (next_wrapper s0)) = true
  /\ ModelInfo.engine (model_info (heap (snd r) (next_wrapper s0))) = engine
  /\ current_device (heap (snd r) (next_wrapper s0)) = device.
Proof.
  intros Hf Hn Hd Hw. cbv zeta. unfold create_model. rewrite Hf, Hn.
  destruct (free_memory_before_load_counters env model_type engine device host s0)
    as [Hnw Hc].
  revert Hnw Hc.
  generalize (free_memory_before_load env model_type engine device host s0) as s'.
  intros s' Hnw Hc.
  destruct m as [inst|]; cbn -[calculate_model_memory];
    match goal with
    | |- context [__init__ ?a ?b ?c ?d] =>
        destruct (init_accepted a b c d Hd Hw) as [self Einit]; rewrite Einit;
        apply init_returns in Einit;
        destruct Einit as (_ & Hinfo & Hsize & Hcur & _ & Hvalid)
    end;
    simpl; rewrite <- Hnw, Hc, Nat.eqb_refl, Hinfo;
    repeat split; auto; apply get_set_same.
Qed.

Lemma create_model_cached env f model_key model_type engine device host s0 h s1 :
  create_model env f model_key model_type engine device host s0 = (Ok h, s1) ->
  PyDict.get model_key (_model_cache s1) = Some h
  /\ _is_valid_for_reuse (heap s1 h) = true.
Proof.
  unfold create_model.
  generalize (free_memory_before_load env model_type engine device host s0) as s'.
  intros s'. destruct (f device) as [m|]; [|discriminate].
  destruct (calculate_model_memory m) as [n|];
    destruct m as [inst|]; cbn -[calculate_model_memory];
    try discriminate; case_init; try discriminate;
    apply init_returns in Einit; destruct Einit as (_ & _ & _ & _ & _ & Hvalid);
    intros H; inversion H; subst; clear H; simpl;
    rewrite Nat.eqb_refl; split; auto; apply get_set_same.
Qed.

Lemma load_model_cached env f model_key model_type engine device force_reload
    host s h s1 :
  load_model env f model_key model_type engine device force_reload host s
  = (Ok h, s1) ->
  PyDict.get model_key (_model_cache s1) = Some h
  /\ _is_valid_for_reuse (heap s1 h) = true.
Proof.
  destruct force_reload.
  - unfold load_model.
    destruct (if String.eqb engine "higgs_audio" then _ else _) as [wrapper|] eqn:Esh.
    + intros H; inversion H; subst; clear H.
      destruct (resurrect_spec model_key h s) as (Hc & Hv & _).
      split; auto. rewrite Hc. apply get_set_same.
    + destruct (PyDict.get model_key (_model_cache s)) as [wrapper|] eqn:Eget;
        [|apply create_model_cached].
      cbn [negb].
      destruct (String.eqb engine "higgs_audio"); [|apply create_model_cached].
      intros H; inversion H; subst; clear H. split.
      * now rewrite reinitialize_in_place_cache.
      * unfold reinitialize_in_place. simpl. now rewrite Nat.eqb_refl.
  - intros H. apply load_model_served in H as [(H1 & H2 & _) _]. auto.
Qed.

(** Whatever path [load_model] takes (resurrection, reuse, reinitialisation
    in place or creation, forced or not), the wrapper it returns is the one
    [get_model] answers for the key afterwards, and it is valid for reuse. *)
Theorem load_model_then_get_model (env : Env) (f : Factory)
    (model_key model_type engine device : string) (force_reload : bool)
    (host : FreeMemory) (s s1 : State) (h : wid) :
  load_model env f model_key model_type engine device force_reload host s
  = (Ok h, s1) ->
  fst (get_model model_key s1) = Some h
  /\ _is_valid_for_reuse (heap s1 h) = true.
Proof.
  intros H. unfold get_model. cbn [fst].
  destruct (load_model_cached _ _ _ _ _ _ _ _ _ _ _ H) as [Hget Hvalid].
  split; assumption.
Qed.

Lemma load_model_then_get_model_witness :
  let r := load_model Sample.hosted (Sample.factory_of Sample.torch_module)
             "k" "tts" "chatterbox" "cuda" true fm_unavailable initial_state in
  fst r = Ok 0 /\ fst (get_model "k" (snd r)) = Some 0.
Proof.
  intros r. split; [reflexivity|].
  apply (load_model_then_get_model Sample.hosted
           (Sample.factory_of Sample.torch_module) "k" "tts" "chatterbox" "cuda"
           true fm_unavailable initial_state (snd r) 0 eq_refl).
Defined.

(** ** Replacing a cached model *)

(** For an engine other than Higgs Audio, a cached wrapper that is invalid
    (after [detach]) or whose reload is forced is not reused: when the
    factory returns, the estimate is [n] and the constructor of the wrapper
    accepts the device name and the instance, [load_model] returns a wrapper
    created in this call (another object than the cached one), of size [n],
    valid, stored under the key, after exactly one factory call. *)
Theorem load_model_recreates (env : Env) (f : Factory)
    (model_key model_type engine device : string) (force_reload : bool)
    (host : FreeMemory) (s : State) (h : wid) (m : option Instance) (n : Z) :
  PyDict.get model_key (_model_cache s) = Some h ->
  h < next_wrapper s ->
  String.eqb engine "higgs_audio" = false ->
  force_reload = true \/ _is_valid_for_reuse (heap s h) = false ->
  f device = returns m ->
  calculate_model_memory m = Ok n ->
  device_accepted env device = true ->
  weakly_referable m = true ->
  let r := load_model env f model_key model_type engine device force_reload
             host s in
  exists h', fst r = Ok h' /\ h' <> h
    /\ PyDict.get model_key (_model_cache (snd r)) = Some h'
    /\ factory_calls (snd r) = S (factory_calls s)
    /\ _memory_size (heap (snd r) h') = n
    /\ _is_valid_for_reuse (heap (snd r) h') = true.
Proof.
  intros Hget Hlt He Hwhy Hf Hn Hdev Hweak r.
  assert (Hr : r = create_model env f model_key model_type engine device host
                     (snd (remove_model model_key s))).
  { subst r. unfold load_model. rewrite He, Hget.
    destruct force_reload; cbn [negb]; auto.
    destruct Hwhy as [Hwhy|Hwhy]; [discriminate|]. rewrite Hwhy. reflexivity. }
  destruct (remove_model_quiet model_key s) as (_ & Hw & _ & Hc & _).
  destruct (create_model_ok env f model_key model_type engine device host
              (snd (remove_model model_key s)) m n Hf Hn Hdev Hweak)
    as (H1 & H2 & H3 & H4 & H5 & _).
  rewrite <- Hr in H1, H2, H3, H4, H5. rewrite Hw in *. rewrite Hc in H3.
  exists (next_wrapper s). repeat split; auto. lia.
Qed.

Lemma load_model_recreates_witness :
  let f := Sample.factory_of Sample.torch_module in
  let s := run Sample.standalone
             [Sample.load Sample.torch_module "k" "chatterbox" "cuda";
              op_call 0 (call_detach false (1700000000 # 1)%Q)] initial_state in
  _is_valid_for_reuse (heap s 0) = false
  /\ exists h', fst (load_model Sample.standalone f "k" "tts" "chatterbox" "cuda"
                       false fm_unavailable s) = Ok h' /\ h' <> 0.
Proof.
  intros f s. split; [reflexivity|].
  destruct (load_model_recreates Sample.standalone f "k" "tts" "chatterbox" "cuda"
              false fm_unavailable s 0 (Some Sample.torch_module) 4000%Z
              eq_refl (le_n 1) eq_refl (or_intror eq_refl) eq_refl eq_refl
              eq_refl eq_refl)
    as (h' & H1 & H2 & _).
  exists h'. split; assumption.
Defined.

(** For the engine ["higgs_audio"], with nothing in shadow storage for the
    key, a cached wrapper that is invalid or whose reload is forced is
    reinitialised in place: [load_model] returns the cached wrapper itself,
    valid again and with the instance's [cuda_graphs_initialized] (when it
    has one) set to [False]; the cache is unchanged and the factory is not
    called. *)
Theorem load_model_higgs_in_place (env : Env) (f : Factory)
    (model_key model_type device : string) (force_reload : bool)
    (host : FreeMemory) (s : State) (h : wid) :
  PyDict.get model_key (_model_cache s) = Some h ->
  PyDict.get (shadow_key model_key) (_model_cache s) = None ->
  force_reload = true \/ _is_valid_for_reuse (heap s h) = false ->
  let r := load_model env f model_key model_type "higgs_audio" device
             force_reload host s in
  fst r = Ok h
  /\ _model_cache (snd r) = _model_cache s
  /\ factory_calls (snd r) = factory_calls s
  /\ _is_valid_for_reuse (heap (snd r) h) = true
  /\ w_model (heap (snd r) h) = w_model (heap s h)
  /\ (forall o, w_model (heap s h) = Some o ->
        cuda_graphs_initialized (objects (snd r) o)
        = option_map (fun _ => false) (cuda_graphs_initialized (objects s o))).
Proof.
  intros Hget Hsh Hwhy r.
  assert (Hr : r = (Ok h, reinitialize_in_place h device s)).
  { subst r. unfold load_model. rewrite String.eqb_refl, Hsh, Hget.
    destruct force_reload; cbn [negb]; auto.
    destruct Hwhy as [Hwhy|Hwhy]; [discriminate|]. rewrite Hwhy. reflexivity. }
  rewrite Hr. cbn [fst snd].
  destruct (reinitialize_in_place_quiet h device s) as (_ & _ & _ & Hc & Hfr).
  repeat apply conj; auto.
  - apply reinitialize_in_place_cache.
  - unfold reinitialize_in_place. simpl. now rewrite Nat.eqb_refl.
  - destruct (Hfr h) as (Hm & _). exact Hm.
  - intros o Ho. unfold reinitialize_in_place. simpl.
    destruct (model_load_frame h (Some device) (reset_cuda_graph_state h s))
      as (_ & _ & -> & _).
    unfold reset_cuda_graph_state. rewrite Ho.
    destruct (cuda_graphs_initialized (objects s o)) eqn:E; simpl.
    + now rewrite Nat.eqb_refl.
    + exact E.
Qed.

Lemma load_model_higgs_in_place_witness :
  let f := Sample.factory_of Sample.higgs_engine in
  let s := run Sample.standalone
             [Sample.load Sample.higgs_engine "K" "higgs_audio" "cuda";
              op_call 0 (call_detach false (1700000000 # 1)%Q)] initial_state in
  let r := load_model Sample.standalone f "K" "tts" "higgs_audio" "cuda" false
             fm_unavailable s in
  _is_valid_for_reuse (heap s 0) = false
  /\ fst r = Ok 0
  /\ factory_calls (snd r) = 1
  /\ cuda_graphs_initialized (objects (snd r) 0) = Some false.
Proof.
  intros f s r. split; [reflexivity|].
  pose proof (load_model_higgs_in_place Sample.standalone f "K" "tts" "cuda" false
                fm_unavailable s 0 eq_refl eq_refl (or_intror eq_refl)) as H.
  cbv zeta in H. destruct H as (H1 & _ & H3 & _ & _ & H6).
  split; [exact H1|]. split; [exact H3 | exact (H6 0 eq_refl)].
Defined.

(** ** When construction fails *)

(** [remove_model] adds no key but a shadow key. *)
Lemma remove_model_new_keys key0 s k i :
  PyDict.get k (_model_cache (snd (remove_model key0 s))) = Some i ->
  String.prefix "_shadow_" k = true \/ PyDict.get k (_model_cache s) = Some i.
Proof.
  rewrite remove_model_cache.
  destruct (PyDict.get key0 (_model_cache s)) as [i0|]; auto.
  destruct (String.eqb _ _); intros H.
  - destruct (string_dec k (shadow_key key0)) as [->|Hne].
    + left. apply shadow_key_prefix.
    + rewrite get_set_other in H by auto. right. eapply get_remove_Some; eauto.
  - right. eapply get_remove_Some; eauto.
Qed.

Lemma remove_models_new_keys keys : forall s k i,
  PyDict.get k (_model_cache (remove_models keys s)) = Some i ->
  String.prefix "_shadow_" k = true \/ PyDict.get k (_model_cache s) = Some i.
Proof.
  unfold remove_models.
  induction keys as [|key0 r IH]; intros s k i H; simpl in *; auto.
  apply IH in H as [H|H]; auto. now apply remove_model_new_keys in H.
Qed.

Lemma free_memory_before_load_new_keys env model_type engine device host s k i :
  PyDict.get k (_model_cache
                  (free_memory_before_load env model_type engine device host s))
  = Some i ->
  String.prefix "_shadow_" k = true \/ PyDict.get k (_model_cache s) = Some i.
Proof.
  unfold free_memory_before_load. destruct (_ && _); auto.
  assert (Hclear : forall s0,
            PyDict.get k (_model_cache (clear_other_engines model_type engine s0))
            = Some i ->
            String.prefix "_shadow_" k = true
            \/ PyDict.get k (_model_cache s0) = Some i).
  { intros s0. unfold clear_other_engines. destruct (_ && _); auto.
    apply remove_models_new_keys. }
  destruct host as [|calls|calls]; intros H.
  - now apply Hclear.
  - apply Hclear in H as [H|H]; auto.
    rewrite (frame_cache _ _ (run_calls_frame _ _)) in H. auto.
  - rewrite (frame_cache _ _ (run_calls_frame _ _)) in H. auto.
Qed.

Lemma create_model_raise env f model_key model_type engine device host s0 s1 :
  create_model env f model_key model_type engine device host s0 = (Raise, s1) ->
  _model_cache s1
  = _model_cache (free_memory_before_load env model_type engine device host s0)
  /\ factory_calls s1 = S (factory_calls s0).
Proof.
  unfold create_model.
  destruct (free_memory_before_load_counters env model_type engine device host s0)
    as [_ Hc].
  revert Hc.
  generalize (free_memory_before_load env model_type engine device host s0) as s'.
  intros s' Hc.
  destruct (f device) as [m|].
  - destruct (calculate_model_memory m); destruct m;
      cbn -[calculate_model_memory]; try case_init;
      intros H; inversion H; subst; simpl; auto.
  - intros H; inversion H; subst; simpl; auto.
Qed.

(** When [load_model] raises (the factory raised, or the estimate of what
    it returned did, or the constructor of the wrapper did), the factory
    was called once and no entry is left
    under the key, for a key without the shadow prefix: also when a
    wrapper was cached there before a forced reload. *)
Theorem load_model_raise_leaves_no_entry (env : Env) (f : Factory)
    (model_key model_type engine device : string) (force_reload : bool)
    (host : FreeMemory) (s s1 : State) :
  load_model env f model_key model_type engine device force_reload host s
  = (Raise, s1) ->
  String.prefix "_shadow_" model_key = false ->
  fst (get_model model_key s1) = None
  /\ factory_calls s1 = S (factory_calls s).
Proof.
  intros H Hp. unfold get_model. cbn [fst].
  assert (Hcreate : forall s0,
            PyDict.get model_key (_model_cache s0) = None ->
            factory_calls s0 = factory_calls s ->
            create_model env f model_key model_type engine device host s0
            = (Raise, s1) ->
            PyDict.get model_key (_model_cache s1) = None
            /\ factory_calls s1 = S (factory_calls s)).
  { intros s0 Hnone Hfc Hc. apply create_model_raise in Hc as [Hc1 Hc2].
    split; [|congruence]. rewrite Hc1.
    destruct (PyDict.get model_key (_model_cache (free_memory_before_load _ _ _ _ _ _)))
      as [i|] eqn:E; auto.
    apply free_memory_before_load_new_keys in E as [E|E]; congruence. }
  assert (Hremoved :
            create_model env f model_key model_type engine device host
              (snd (remove_model model_key s)) = (Raise, s1) ->
            PyDict.get model_key (_model_cache s1) = None
            /\ factory_calls s1 = S (factory_calls s)).
  { apply Hcreate; [apply remove_model_get_None|].
    now destruct (remove_model_quiet model_key s) as (_ & _ & _ & ? & _). }
  unfold load_model in H.
  destruct (if String.eqb engine "higgs_audio" then _ else _) as [wrapper|];
    [discriminate|].
  destruct (PyDict.get model_key (_model_cache s)) as [wrapper|] eqn:Eget;
    [|now apply (Hcreate s)].
  destruct (negb force_reload).
  - destruct (negb _); [|discriminate].
    destruct (String.eqb engine "higgs_audio"); [discriminate | auto].
  - destruct (String.eqb engine "higgs_audio"); [discriminate | auto].
Qed.

Lemma load_model_raise_leaves_no_entry_witness :
  let broken : Factory := fun _ => returns (Some Sample.hyperparameters_object) in
  let s := run Sample.standalone
             [Sample.load Sample.torch_module "k" "chatterbox" "cuda"]
             initial_state in
  let r := load_model Sample.standalone broken "k" "tts" "chatterbox" "cuda" true
             fm_unavailable s in
  fst (get_model "k" s) = Some 0
  /\ fst r = Raise
  /\ fst (get_model "k" (snd r)) = None.
Proof.
  intros broken s r. split; [reflexivity|]. split; [reflexivity|].
  apply (load_model_raise_leaves_no_entry Sample.standalone broken "k" "tts"
           "chatterbox" "cuda" true fm_unavailable s (snd r) eq_refl eq_refl).
Defined.

(** ** What a sweep of the cache leaves *)

Lemma get_In_entry {V} k (d : PyDict.t V) v : PyDict.get k d = Some v -> In (k, v) d.
Proof.
  induction d as [|[k' v'] r IH]; simpl; try discriminate.
  destruct (String.eqb_spec k' k) as [->|Hne]; intros H.
  - left. congruence.
  - right. auto.
Qed.

(** Removing the keys [keys], when they include every key whose wrapper
    satisfies [P] (a test of the wrapper's [model_info]), leaves only
    wrappers that fail [P] or are Higgs Audio wrappers. *)
Lemma remove_models_sweep (P : Wrapper -> bool) :
  (forall w w', model_info w = model_info w' -> P w = P w') ->
  forall keys s,
    (forall k i, PyDict.get k (_model_cache s) = Some i ->
                 P (heap s i) = true ->
                 In k keys
                 \/ ModelInfo.engine (model_info (heap s i)) = "higgs_audio") ->
    forall k i,
      PyDict.get k (_model_cache (remove_models keys s)) = Some i ->
      P (heap (remove_models keys s) i) = false
      \/ ModelInfo.engine (model_info (heap (remove_models keys s) i))
         = "higgs_audio".
Proof.
  intros HP. unfold remove_models.
  induction keys as [|key0 r IH]; intros s Hs k i Hget; simpl in *.
  - destruct (P (heap s i)) eqn:E; auto.
    destruct (Hs k i Hget E) as [[]|H]; auto.
  - apply (IH (snd (remove_model key0 s))) with (k := k); [|exact Hget].
    clear k i Hget. intros k i Hget HPi.
    destruct (remove_model_quiet key0 s) as (_ & _ & _ & _ & Hf).
    assert (Hinfo : forall j, model_info (heap (snd (remove_model key0 s)) j)
                              = model_info (heap s j)).
    { intros j. destruct (Hf j) as (_ & H & _). exact H. }
    rewrite Hinfo. rewrite (HP _ (heap s i) (Hinfo i)) in HPi.
    rewrite remove_model_cache in Hget.
    assert (Hold : PyDict.get k (PyDict.remove key0 (_model_cache s)) = Some i ->
                   In k r
                   \/ ModelInfo.engine (model_info (heap s i)) = "higgs_audio").
    { intros H. destruct (string_dec k key0) as [->|Hne].
      - now rewrite get_remove_same in H.
      - rewrite get_remove_other in H by auto.
        destruct (Hs k i H HPi) as [[Heq|Hin]|Hh]; auto. congruence. }
    destruct (PyDict.get key0 (_model_cache s)) as [i0|] eqn:E0.
    + destruct (String.eqb_spec (ModelInfo.engine (model_info (heap s i0)))
                  "higgs_audio") as [He|He]; auto.
      destruct (string_dec k (shadow_key key0)) as [->|Hne].
      * rewrite get_set_same in Hget. inversion Hget; subst. auto.
      * rewrite get_set_other in Hget by auto. auto.
    + destruct (Hs k i Hget HPi) as [[Heq|Hin]|Hh]; auto.
      subst. congruence.
Qed.

Lemma should_remove_info model_type engine w w' :
  model_info w = model_info w' ->
  should_remove model_type engine w = should_remove model_type engine w'.
Proof. intros H. unfold should_remove. now rewrite H. Qed.

(** After [clear_cache], every wrapper still in the cache either does not
    match the filters or is a Higgs Audio wrapper (moved to shadow
    storage); so [clear_cache()] without filters leaves nothing but Higgs
    Audio wrappers. *)
Theorem clear_cache_sweeps (model_type engine : option string) (s : State) :
  let s' := clear_cache model_type engine s in
  forall k i, PyDict.get k (_model_cache s') = Some i ->
    should_remove model_type engine (heap s' i) = false
    \/ ModelInfo.engine (model_info (heap s' i)) = "higgs_audio".
Proof.
  cbv zeta. unfold clear_cache.
  apply (remove_models_sweep (should_remove model_type engine)
           (should_remove_info model_type engine)).
  intros k i Hget HP. left. unfold PyDict.keys.
  apply (in_map fst _ (k, i)). apply filter_In. split; auto.
  now apply get_In_entry.
Qed.

Lemma clear_cache_sweeps_witness :
  let s := run Sample.standalone
             [Sample.load Sample.higgs_engine "K" "higgs_audio" "cuda";
              Sample.load Sample.torch_module "k" "chatterbox" "cuda"]
             initial_state in
  let s' := clear_cache None None s in
  PyDict.get (shadow_key "K") (_model_cache s') = Some 0
  /\ (should_remove None None (heap s' 0) = false
      \/ ModelInfo.engine (model_info (heap s' 0)) = "higgs_audio").
Proof.
  intros s s'. split; [reflexivity|].
  apply (clear_cache_sweeps None None s (shadow_key "K") 0). reflexivity.
Defined.

(** ** What [remove_model] and [clear_cache] never touch *)

Lemma model_unload_cases self memory_to_free unpatch_weights s :
  snd (model_unload self memory_to_free unpatch_weights s) = marked_unloaded self s
  \/ snd (model_unload self memory_to_free unpatch_weights s) = s.
Proof.
  unfold model_unload.
  assert (H : forall m,
            snd (partially_unload self "cpu" m s) = marked_unloaded self s
            \/ snd (partially_unload self "cpu" m s) = s).
  { intros m. destruct (partially_unload_cases self "cpu" m s) as [H|[H _]]; auto. }
  destruct memory_to_free as [m|].
  - destruct (_ <? _)%Z.
    + specialize (H m). destruct (partially_unload self "cpu" m s); auto.
    + specialize (H (_memory_size (heap s self))).
      destruct (partially_unload self "cpu" _ s); auto.
  - specialize (H (_memory_size (heap s self))).
    destruct (partially_unload self "cpu" _ s); auto.
Qed.

Lemma remove_model_spares key0 s :
  (forall j, ModelInfo.engine (model_info (heap s j)) = "higgs_audio" ->
             heap (snd (remove_model key0 s)) j = heap s j)
  /\ (forall j, _is_valid_for_reuse (heap (snd (remove_model key0 s)) j)
                = _is_valid_for_reuse (heap s j)).
Proof.
  unfold remove_model.
  destruct (PyDict.get key0 (_model_cache s)) as [i0|]; auto.
  destruct (String.eqb_spec (ModelInfo.engine (model_info (heap s i0))) "higgs_audio")
    as [He|He]; cbn [snd]; auto.
  set (s0 := set_cache _ s). split.
  - intros j Hj.
    assert (Hne : j <> i0) by (intros ->; congruence).
    destruct (model_unload_cases i0 None true s0) as [-> | ->]; auto.
    unfold marked_unloaded. now rewrite !upd_wrapper_heap_other.
  - intros j.
    destruct (model_unload_cases i0 None true s0) as [-> | ->]; auto.
    unfold marked_unloaded. simpl. now destruct (Nat.eqb j i0).
Qed.

Lemma remove_models_spares keys : forall s,
  (forall j, ModelInfo.engine (model_info (heap s j)) = "higgs_audio" ->
             heap (remove_models keys s) j = heap s j)
  /\ (forall j, _is_valid_for_reuse (heap (remove_models keys s) j)
                = _is_valid_for_reuse (heap s j)).
Proof.
  unfold remove_models.
  induction keys as [|key0 r IH]; intros s; simpl; auto.
  destruct (remove_model_spares key0 s) as [H1 H2].
  destruct (IH (snd (remove_model key0 s))) as [H3 H4].
  split.
  - intros j Hj. rewrite H3; auto. now rewrite H1.
  - intros j. now rewrite H4, H2.
Qed.

(** [remove_model] and [clear_cache] leave every attribute of a Higgs
    Audio wrapper as it was (its current device, its loaded mark, its
    validity): only wrappers of other engines are unloaded; and they leave
    the invalidation flag alone (a removed model is unloaded, not
    detached, so no wrapper is marked invalid either). *)
Theorem removal_spares_higgs_audio (s : State) :
  (forall model_key,
      let s' := snd (remove_model model_key s) in
      (forall j, ModelInfo.engine (model_info (heap s j)) = "higgs_audio" ->
                 heap s' j = heap s j)
      /\ (forall j, _is_valid_for_reuse (heap s' j) = _is_valid_for_reuse (heap s j))
      /\ flag s' = flag s)
  /\ (forall model_type engine,
         let s' := clear_cache model_type engine s in
         (forall j, ModelInfo.engine (model_info (heap s j)) = "higgs_audio" ->
                    heap s' j = heap s j)
         /\ (forall j, _is_valid_for_reuse (heap s' j)
                       = _is_valid_for_reuse (heap s j))
         /\ flag s' = flag s).
Proof.
  split.
  - intros model_key s'. subst s'.
    destruct (remove_model_spares model_key s) as [H1 H2].
    repeat split; auto. apply quiet_flag, remove_model_quiet.
  - intros model_type engine s'. subst s'. unfold clear_cache.
    match goal with |- context [remove_models ?keys s] =>
      destruct (remove_models_spares keys s) as [H1 H2] end.
    repeat split; auto. apply quiet_flag, remove_models_quiet.
Qed.

Lemma removal_spares_higgs_audio_witness :
  let s := run Sample.standalone
             [Sample.load Sample.higgs_engine "K" "higgs_audio" "cuda";
              Sample.load Sample.torch_module "k" "chatterbox" "cuda"]
             initial_state in
  ModelInfo.engine (model_info (heap s 0)) = "higgs_audio"
  /\ heap (clear_cache None None s) 0 = heap s 0.
Proof.
  intros s. split; [reflexivity|].
  destruct (removal_spares_higgs_audio s) as [_ H].
  destruct (H None None) as (H1 & _). apply H1. reflexivity.
Defined.

(** ** Making room for a new model *)







(** ** Reusing a cached model on a device *)

(** On the reuse path (a valid cached wrapper, no forced reload, nothing to
    resurrect): a wrapper that is marked loaded is returned untouched
    whatever device was asked for, so it is never moved from one device to
    another; a wrapper that is not loaded is moved to the requested device
    when that differs from its current one and is not ['auto'], provided
    the instance's [to] accepts the device. *)
Theorem load_model_reuse_device (env : Env) (f : Factory)
    (model_key model_type engine device : string) (host : FreeMemory)
    (s : State) (h : wid) :
  PyDict.get model_key (_model_cache s) = Some h ->
  _is_valid_for_reuse (heap s h) = true ->
  (engine = "higgs_audio" ->
   PyDict.get (shadow_key model_key) (_model_cache s) = None) ->
  let r := load_model env f model_key model_type engine device false host s in
  fst r = Ok h
  /\ (_is_loaded_on_gpu (heap s h) = true -> snd r = s)
  /\ (device = "auto" -> snd r = s)
  /\ (forall o to_raises,
         _is_loaded_on_gpu (heap s h) = false ->
         current_device (heap s h) <> device ->
         device <> "auto" -> device <> "" ->
         w_model (heap s h) = Some o ->
         inst_to (objects s o) = Some to_raises ->
         to_raises device = false ->
         _is_loaded_on_gpu (heap (snd r) h) = true
         /\ current_device (heap (snd r) h) = device).
Proof.
  intros Hget Hv Hsh r. subst r. unfold load_model.
  assert (E : (if String.eqb engine "higgs_audio"
               then PyDict.get (shadow_key model_key) (_model_cache s)
               else None) = None).
  { destruct (String.eqb_spec engine "higgs_audio"); auto. }
  rewrite E, Hget, Hv. cbn [negb fst snd].
  split; [reflexivity|]. split; [|split].
  - intros Hl. destruct (_ && _); auto. unfold model_load. now rewrite Hl.
  - intros ->. simpl. now rewrite andb_false_r.
  - intros o to_raises Hl Hcur Hauto Hempty Hm Hto Hok.
    apply String.eqb_neq in Hcur, Hauto, Hempty. rewrite Hcur, Hauto. simpl.
    unfold model_load, _model_ref. rewrite Hl, Hm. simpl.
    rewrite Hto, Hempty, Hok. simpl. now rewrite Nat.eqb_refl.
Qed.

Lemma load_model_reuse_device_witness :
  let f := Sample.factory_of Sample.torch_module in
  let s := run Sample.standalone
             [Sample.load Sample.torch_module "k" "chatterbox" "cuda:0"]
             initial_state in
  let r := load_model Sample.standalone f "k" "tts" "chatterbox" "cuda:1" false
             fm_unavailable s in
  current_device (heap s 0) = "cuda:0" /\ fst r = Ok 0 /\ snd r = s.
Proof.
  intros f s r. split; [reflexivity|].
  pose proof (load_model_reuse_device Sample.standalone f "k" "tts" "chatterbox"
                "cuda:1" fm_unavailable s 0 eq_refl eq_refl
                (fun H => match H with end)) as H.
  cbv zeta in H. destruct H as (H1 & H2 & _). split; [exact H1 | exact (H2 eq_refl)].
Defined.

(** ** Sizes are never negative *)

Definition nonneg_parameters (p : option Parameters) : Prop :=
  match p with
  | Some (params ps) => Forall (fun pr => (0 <= fst pr)%Z /\ (0 <= snd pr)%Z) ps
  | _ => True
  end.

(** Every parameter of the instance, and of the values of its [__dict__],
    has a count and an element size that are not negative. *)
Definition nonneg_instance (model : option Instance) : Prop :=
  match model with
  | None => True
  | Some m =>
      nonneg_parameters (inst_parameters m)
      /\ match inst_dict m with
         | Some attrs =>
             Forall (fun a => nonneg_parameters (comp_parameters (snd a))) attrs
         | None => True
         end
  end.

Definition nonneg_factory (op : Op) : Prop :=
  match op with
  | op_load_model f _ _ _ _ _ _ => forall d m, f d = returns m -> nonneg_instance m
  | _ => True
  end.

Lemma estimate_nonneg p n :
  nonneg_parameters p -> _estimate_model_memory p = Ok n -> (0 <= n)%Z.
Proof.
  destruct p as [[ps|]|]; simpl; intros H E; inversion E; subst; try lia.
  clear E. assert (G : forall acc, (0 <= acc)%Z ->
             (0 <= fold_left (fun t pr => (t + fst pr * snd pr)%Z) ps acc)%Z).
  { induction H as [|pr r [H1 H2] _ IH]; intros acc Hacc; simpl; auto.
    apply IH. nia. }
  apply G. lia.
Qed.

Lemma sum_components_nonneg attrs : forall acc n,
  Forall (fun a => nonneg_parameters (comp_parameters (snd a))) attrs ->
  (0 <= acc)%Z -> sum_components attrs acc = Ok n -> (0 <= n)%Z.
Proof.
  induction attrs as [|[name c] r IH]; intros acc n H Hacc E;
    cbn [sum_components] in E.
  - inversion E; subst; auto.
  - inversion H as [|? ? Hc Hr]; subst. cbn [snd] in Hc.
    destruct (comp_parameters c) as [p|] eqn:Ep; [|eauto].
    destruct (_estimate_model_memory (Some p)) as [k|] eqn:Ek; [|discriminate].
    apply (estimate_nonneg _ _ Hc) in Ek. apply (IH _ _ Hr) in E; auto. lia.
Qed.

Lemma calculate_model_memory_nonneg model n :
  nonneg_instance model -> calculate_model_memory model = Ok n -> (0 <= n)%Z.
Proof.
  destruct model as [m|]; simpl.
  - intros [Hp Hd]. destruct (inst_parameters m) as [p|] eqn:Ep.
    + intros E. apply (estimate_nonneg (Some p)); auto.
    + destruct (inst_dict m) as [attrs|].
      * apply sum_components_nonneg; auto. lia.
      * intros E; inversion E; subst. unfold GiB. lia.
  - intros _ E; inversion E; subst. unfold GiB. lia.
Qed.

Definition sizes_nonneg (s : State) : Prop :=
  forall j, (0 <= _memory_size (heap s j))%Z.

Lemma sizes_nonneg_frame s s' :
  (forall j, wrapper_frame (heap s j) (heap s' j)) ->
  sizes_nonneg s -> sizes_nonneg s'.
Proof. intros Hf H j. destruct (Hf j) as (_ & _ & -> & _). apply H. Qed.

Lemma sizes_nonneg_quiet s s' : quiet s s' -> sizes_nonneg s -> sizes_nonneg s'.
Proof. intros (_ & _ & _ & _ & Hf). now apply sizes_nonneg_frame. Qed.

Lemma sizes_nonneg_handle s s' :
  handle_frame s s' -> sizes_nonneg s -> sizes_nonneg s'.
Proof. intros (_ & _ & _ & _ & _ & Hf). now apply sizes_nonneg_frame. Qed.

Lemma sizes_nonneg_create env f model_key model_type engine device host s0 :
  (forall d m, f d = returns m -> nonneg_instance m) ->
  sizes_nonneg s0 ->
  sizes_nonneg (snd (create_model env f model_key model_type engine device host s0)).
Proof.
  intros Hf H0. unfold create_model.
  assert (H1 : sizes_nonneg
                 (free_memory_before_load env model_type engine device host s0)).
  { unfold free_memory_before_load. destruct (_ && _); auto.
    destruct host as [|calls|calls].
    - eapply sizes_nonneg_quiet; [apply clear_other_engines_quiet | auto].
    - eapply sizes_nonneg_quiet; [apply clear_other_engines_quiet|].
      eapply sizes_nonneg_handle; [apply run_calls_frame | auto].
    - eapply sizes_nonneg_handle; [apply run_calls_frame | auto]. }
  revert H1.
  generalize (free_memory_before_load env model_type engine device host s0) as s'.
  intros s' H1.
  destruct (f device) as [m|] eqn:Ef; [|exact H1].
  specialize (Hf device m Ef).
  destruct (calculate_model_memory m) as [n|] eqn:En;
    [apply (calculate_model_memory_nonneg m n Hf) in En|];
    destruct m as [inst|]; cbn -[calculate_model_memory]; try exact H1;
    case_init; cbn [snd]; try exact H1;
    apply init_returns in Einit; destruct Einit as (_ & _ & Hsize & _);
    intros j; simpl; destruct (Nat.eqb j (next_wrapper s')); simpl;
    first [apply H1 | rewrite Hsize; simpl; exact En].
Qed.

Lemma sizes_nonneg_run_op env op s :
  nonneg_factory op -> sizes_nonneg s -> sizes_nonneg (run_op env op s).
Proof.
  destruct op as [f k t e d fr host| | | | |self c]; simpl; intros Hf H; auto.
  - unfold load_model.
    destruct (if String.eqb e "higgs_audio" then _ else _) as [wrapper|];
      [eapply sizes_nonneg_quiet; [apply resurrect_quiet | auto]|].
    assert (Hre : forall w, sizes_nonneg (reinitialize_in_place w d s)).
    { intros w. eapply sizes_nonneg_quiet; [apply reinitialize_in_place_quiet | auto]. }
    assert (Hcr : sizes_nonneg
                    (snd (create_model env f k t e d host (snd (remove_model k s))))).
    { apply sizes_nonneg_create; auto.
      eapply sizes_nonneg_quiet; [apply remove_model_quiet | auto]. }
    destruct (PyDict.get k (_model_cache s)) as [wrapper|];
      [|now apply sizes_nonneg_create].
    destruct (negb fr).
    + destruct (negb _).
      * destruct (String.eqb e "higgs_audio"); cbn [snd]; auto.
      * cbn [snd]. destruct (_ && _); auto.
        eapply sizes_nonneg_quiet; [apply model_load_quiet | auto].
    + destruct (String.eqb e "higgs_audio"); cbn [snd]; auto.
  - eapply sizes_nonneg_quiet; [apply remove_model_quiet | auto].
  - eapply sizes_nonneg_quiet; [apply clear_cache_quiet | auto].
  - eapply sizes_nonneg_handle; [apply run_call_frame | auto].
Qed.

(** When the parameters that model factories hand out have counts and
    element sizes that are not negative, then in every state reached from
    the start no wrapper has a negative size: [loaded_size],
    [model_offloaded_memory] and the [total_memory_mb] of [get_stats] are
    never negative. *)
Theorem sizes_never_negative (env : Env) (ops : list Op) :
  Forall nonneg_factory ops ->
  let s := run env ops initial_state in
  (forall self, (0 <= fst (loaded_size self s))%Z
                /\ (0 <= fst (model_offloaded_memory self s))%Z)
  /\ (0 <= total_memory_mb (fst (get_stats env s)))%Z.
Proof.
  intros Hops s.
  assert (Hs : sizes_nonneg s).
  { subst s. unfold run.
    assert (G : forall s0, sizes_nonneg s0 ->
              sizes_nonneg (fold_left (fun s op => run_op env op s) ops s0)).
    { induction Hops as [|op r Hop _ IH]; intros s0 H0; simpl; auto.
      apply IH. now apply sizes_nonneg_run_op. }
    apply G. intros j. simpl. lia. }
  assert (Hl : forall self, (0 <= fst (loaded_size self s)
                             <= _memory_size (heap s self))%Z).
  { intros self. unfold loaded_size. simpl. specialize (Hs self).
    destruct (_is_loaded_on_gpu (heap s self)); lia. }
  split.
  - intros self. split; [apply Hl|].
    unfold model_offloaded_memory, model_size. simpl.
    specialize (Hl self). unfold loaded_size in Hl. simpl in Hl. lia.
  - simpl. unfold total_memory.
    rewrite (fold_left_Z_sum (fun w => fst (loaded_size w s))).
    assert (Hsum : (0 <= Z_sum (map (fun w => fst (loaded_size w s))
                                  (PyDict.values (_model_cache s))))%Z).
    { induction (PyDict.values (_model_cache s)) as [|w r IH];
        cbn [map Z_sum fold_right]; [lia|].
      specialize (Hl w). fold (Z_sum (map (fun w => fst (loaded_size w s)) r)).
      lia. }
    apply Z.div_pos; [|lia]. apply Z.div_pos; lia.
Qed.

Lemma sizes_never_negative_witness :
  let ops := [Sample.load Sample.higgs_engine "K" "higgs_audio" "cuda";
              op_call 0 (call_partially_unload "cpu" 1%Z);
              Sample.load Sample.torch_module "k" "chatterbox" "cuda"] in
  Forall nonneg_factory ops
  /\ (0 <= total_memory_mb
             (fst (get_stats Sample.standalone
                     (run Sample.standalone ops initial_state))))%Z.
Proof.
  intros ops.
  assert (H : Forall nonneg_factory ops).
  { subst ops. repeat constructor; simpl; intros d m E; inversion E; subst;
      simpl; repeat constructor; simpl; lia. }
  split; [exact H|].
  apply (sizes_never_negative Sample.standalone ops H).
Defined.

(** * Loaded size and residency *)

(** ** The residency of a handle

    A handle is Quarantined when the cache holds it under a key with the
    shadow prefix; otherwise it is Resident or Evicted as its wrapper
    records in [_is_loaded_on_gpu], the attribute that [partially_unload]
    clears and [model_load] sets. [on_fast_device] is the test of line 110
    on the wrapper's current device. *)

Module Handle.
Inductive Residency := Resident | Evicted | Quarantined.
End Handle.

Definition in_shadow_storage (s : State) (w : wid) : bool :=
  existsb (fun kw => String.prefix "_shadow_" (fst kw) && Nat.eqb (snd kw) w)
    (_model_cache s).

Definition on_fast_device (w : Wrapper) : bool :=
  negb (in_cpu_offload (current_device w)).

Definition handle_residency (s : State) (w : wid) : Handle.Residency :=
  if in_shadow_storage s w then Handle.Quarantined
  else match residency (heap s w) with
       | Resident => Handle.Resident
       | Evicted => Handle.Evicted
       end.

(** ** A wrapper on a fast device is marked as loaded *)

Definition marked (w : Wrapper) : Prop :=
  on_fast_device w = true -> _is_loaded_on_gpu w = true.

Definition marks_kept (s s' : State) : Prop :=
  forall j, marked (heap s j) -> marked (heap s' j).

Definition all_marked (s : State) : Prop :=
  forall j, j < next_wrapper s -> marked (heap s j).

Lemma marks_kept_refl s : marks_kept s s.
Proof. now intros j. Qed.

Lemma marks_kept_trans s1 s2 s3 :
  marks_kept s1 s2 -> marks_kept s2 s3 -> marks_kept s1 s3.
Proof. intros H1 H2 j H. auto. Qed.

Lemma marks_kept_heap s s' : heap s' = heap s -> marks_kept s s'.
Proof. intros H j. now rewrite H. Qed.

Lemma marks_kept_marked_unloaded self s : marks_kept s (marked_unloaded self s).
Proof.
  intros j H. unfold marked_unloaded. simpl.
  destruct (Nat.eqb j self); auto. unfold marked, on_fast_device. simpl. discriminate.
Qed.

Lemma marks_kept_valid self b s :
  marks_kept s (upd_wrapper self (set_is_valid_for_reuse b) s).
Proof. intros j H. simpl. now destruct (Nat.eqb j self). Qed.

Lemma marks_kept_partially_unload self device memory_to_free s :
  marks_kept s (snd (partially_unload self device memory_to_free s)).
Proof.
  destruct (partially_unload_cases self device memory_to_free s) as [->|[-> _]].
  - apply marks_kept_marked_unloaded.
  - apply marks_kept_refl.
Qed.

Lemma marks_kept_model_unload self memory_to_free unpatch_weights s :
  marks_kept s (snd (model_unload self memory_to_free unpatch_weights s)).
Proof.
  destruct (model_unload_cases self memory_to_free unpatch_weights s) as [->| ->].
  - apply marks_kept_marked_unloaded.
  - apply marks_kept_refl.
Qed.

Lemma marks_kept_model_load self device s : marks_kept s (model_load self device s).
Proof.
  unfold model_load. split_matches; try apply marks_kept_refl;
    intros j H; simpl; destruct (Nat.eqb j self); auto;
    unfold marked; simpl; auto.
Qed.

Lemma marks_kept_run_call self c s : marks_kept s (run_call self c s).
Proof.
  destruct c; simpl; try apply marks_kept_refl.
  - apply marks_kept_partially_unload.
  - apply marks_kept_model_unload.
  - apply marks_kept_model_load.
  - unfold detach.
    pose proof (marks_kept_partially_unload self "cpu" (_memory_size (heap s self)) s)
      as H.
    destruct (partially_unload self "cpu" (_memory_size (heap s self)) s)
      as [freed s1]. cbn [snd] in H.
    eapply marks_kept_trans; [exact H|]. unfold _clear_node_engine_caches.
    eapply marks_kept_trans; [apply (marks_kept_valid self false)|].
    now apply marks_kept_heap.
  - unfold partially_load. destruct (_ && _); simpl.
    + apply marks_kept_model_load.
    + apply marks_kept_refl.
Qed.

Lemma marks_kept_run_calls calls : forall s, marks_kept s (run_calls calls s).
Proof.
  unfold run_calls. induction calls as [|[i c] r IH]; intros s; simpl.
  - apply marks_kept_refl.
  - eapply marks_kept_trans; [apply marks_kept_run_call | apply IH].
Qed.

Lemma marks_kept_remove_model model_key s :
  marks_kept s (snd (remove_model model_key s)).
Proof.
  unfold remove_model.
  destruct (PyDict.get model_key (_model_cache s)) as [i|];
    [|apply marks_kept_refl].
  destruct (String.eqb _ _); cbn [snd].
  - now apply marks_kept_heap.
  - eapply marks_kept_trans; [|apply marks_kept_model_unload].
    now apply marks_kept_heap.
Qed.

Lemma marks_kept_remove_models keys : forall s, marks_kept s (remove_models keys s).
Proof.
  unfold remove_models. induction keys as [|k r IH]; intros s; simpl.
  - apply marks_kept_refl.
  - eapply marks_kept_trans; [apply marks_kept_remove_model | apply IH].
Qed.

Lemma marks_kept_free_memory env model_type engine device host s :
  marks_kept s (free_memory_before_load env model_type engine device host s).
Proof.
  unfold free_memory_before_load. destruct (_ && _); [|apply marks_kept_refl].
  assert (Hclear : forall s0, marks_kept s0 (clear_other_engines model_type engine s0)).
  { intros s0. unfold clear_other_engines.
    destruct (_ && _); [apply marks_kept_remove_models | apply marks_kept_refl]. }
  destruct host as [|calls|calls]; auto.
  - eapply marks_kept_trans; [apply marks_kept_run_calls | apply Hclear].
  - apply marks_kept_run_calls.
Qed.

Lemma marks_kept_reinitialize wrapper device s :
  marks_kept s (reinitialize_in_place wrapper device s).
Proof.
  unfold reinitialize_in_place.
  eapply marks_kept_trans; [|apply marks_kept_valid].
  eapply marks_kept_trans; [|apply marks_kept_model_load].
  apply marks_kept_heap, reset_cuda_graph_state_cache.
Qed.

Lemma marks_kept_resurrect model_key wrapper s :
  marks_kept s (resurrect model_key wrapper s).
Proof.
  unfold resurrect.
  eapply marks_kept_trans; [|apply marks_kept_valid].
  apply marks_kept_heap. simpl.
  now destruct (reset_cuda_graph_state_cache wrapper
                  (set_cache (PyDict.remove (shadow_key model_key) (_model_cache s)) s))
    as [_ ->].
Qed.

Lemma all_marked_kept s s' :
  marks_kept s s' -> next_wrapper s' = next_wrapper s ->
  all_marked s -> all_marked s'.
Proof. intros Hk Hn H j Hj. rewrite Hn in Hj. auto. Qed.

Lemma all_marked_quiet s s' :
  marks_kept s s' -> quiet s s' -> all_marked s -> all_marked s'.
Proof. intros Hk (_ & Hn & _). now apply all_marked_kept. Qed.

Lemma marked_new env m referent info w :
  __init__ env m referent info = Ok w -> marked w.
Proof.
  intros H. apply init_returns in H as (_ & _ & _ & Hc & Hl & _).
  unfold marked, on_fast_device. now rewrite Hc, Hl.
Qed.

Lemma all_marked_create env f model_key model_type engine device host s0 :
  all_marked s0 ->
  all_marked (snd (create_model env f model_key model_type engine device host s0)).
Proof.
  intros H0. unfold create_model.
  assert (H1 : all_marked
                 (free_memory_before_load env model_type engine device host s0)).
  { apply (all_marked_kept s0); auto.
    - apply marks_kept_free_memory.
    - apply free_memory_before_load_counters. }
  revert H1.
  generalize (free_memory_before_load env model_type engine device host s0) as s'.
  intros s' H1.
  destruct (f device) as [m|]; [|exact H1].
  destruct (calculate_model_memory m) as [n|];
    destruct m as [inst|]; cbn -[calculate_model_memory]; try exact H1;
    case_init; cbn [snd]; try exact H1;
    apply marked_new in Einit;
    intros j Hj; simpl in *;
    destruct (Nat.eqb_spec j (next_wrapper s')); auto; apply H1; lia.
Qed.

Lemma all_marked_run_op env op s : all_marked s -> all_marked (run_op env op s).
Proof.
  intros H. destruct op as [f k t e d fr host| | | | |self c]; simpl; auto.
  - unfold load_model.
    destruct (if String.eqb e "higgs_audio" then _ else _) as [wrapper|];
      [now apply (all_marked_quiet s);
         [apply marks_kept_resurrect | apply resurrect_quiet|]|].
    assert (Hre : forall w, all_marked (reinitialize_in_place w d s)).
    { intros w. apply (all_marked_quiet s); auto.
      - apply marks_kept_reinitialize.
      - apply reinitialize_in_place_quiet. }
    assert (Hcr : all_marked
                    (snd (create_model env f k t e d host (snd (remove_model k s))))).
    { apply all_marked_create. apply (all_marked_quiet s); auto.
      - apply marks_kept_remove_model.
      - apply remove_model_quiet. }
    destruct (PyDict.get k (_model_cache s)) as [wrapper|];
      [|now apply all_marked_create].
    destruct (negb fr).
    + destruct (negb _).
      * destruct (String.eqb e "higgs_audio"); cbn [snd]; auto.
      * cbn [snd]. destruct (_ && _); auto.
        apply (all_marked_quiet s); auto.
        -- apply marks_kept_model_load.
        -- apply model_load_quiet.
    + destruct (String.eqb e "higgs_audio"); cbn [snd]; auto.
  - apply (all_marked_quiet s); auto.
    + apply marks_kept_remove_model.
    + apply remove_model_quiet.
  - apply (all_marked_quiet s); auto.
    + apply marks_kept_remove_models.
    + apply clear_cache_quiet.
  - apply (all_marked_kept s); auto.
    + apply marks_kept_run_call.
    + now destruct (run_call_frame self c s) as (_ & ? & _).
Qed.

Lemma all_marked_run env ops : forall s, all_marked s -> all_marked (run env ops s).
Proof.
  unfold run. induction ops as [|op r IH]; intros s H; simpl; auto.
  apply IH, all_marked_run_op, H.
Qed.

Lemma in_shadow_storage_stored model_key i s :
  PyDict.get (shadow_key model_key) (_model_cache s) = Some i ->
  in_shadow_storage s i = true.
Proof.
  intros H. unfold in_shadow_storage. apply existsb_exists.
  exists (shadow_key model_key, i). split.
  - now apply get_In_entry.
  - unfold shadow_key. cbn.
    rewrite Nat.eqb_refl. now destruct model_key.
Qed.

Lemma loaded_size_value self s :
  loaded_size self s
  = (match residency (heap s self) with
     | Resident => _memory_size (heap s self)
     | Evicted => 0%Z
     end, s).
Proof.
  unfold loaded_size, residency.
  now destruct (_is_loaded_on_gpu (heap s self)).
Qed.

(** C4, as the code has it. The claim itself fails: a quarantined handle
    keeps the loaded size it had (see [loaded_size_quarantined]). What
    holds is this. [loaded_size] changes nothing. In every state reached
    from the empty manager, a handle that exists and is Resident has its
    [_memory_size] as loaded size, one that is Evicted has loaded size 0 and
    a current device ['cpu'] or ['offload'], and one whose current device is
    neither of these has its [_memory_size] as loaded size whatever its
    residency. Quarantining a handle (removing a key of a Higgs Audio
    wrapper) makes it Quarantined and leaves the loaded size of every
    handle as it was. No run of operations changes the [_memory_size] of a
    handle that exists. A constructor that returns takes [_memory_size] from
    its [ModelInfo] and marks the wrapper as loaded unless the device is
    ['cpu'] or ['offload']. *)
Theorem loaded_size_accounting (env : Env) :
  (forall (self : wid) (s : State), snd (loaded_size self s) = s)
  /\ (forall (ops : list Op) (self : wid),
         let s := run env ops initial_state in
         self < next_wrapper s ->
         (handle_residency s self = Handle.Resident ->
          fst (loaded_size self s) = _memory_size (heap s self))
         /\ (handle_residency s self = Handle.Evicted ->
             fst (loaded_size self s) = 0%Z
             /\ on_fast_device (heap s self) = false)
         /\ (on_fast_device (heap s self) = true ->
             fst (loaded_size self s) = _memory_size (heap s self)))
  /\ (forall (model_key : string) (s : State) (i : wid),
         PyDict.get model_key (_model_cache s) = Some i ->
         ModelInfo.engine (model_info (heap s i)) = "higgs_audio" ->
         let s' := snd (remove_model model_key s) in
         handle_residency s' i = Handle.Quarantined
         /\ forall j, fst (loaded_size j s') = fst (loaded_size j s))
  /\ (forall (ops : list Op) (s : State) (self : wid),
         self < next_wrapper s ->
         _memory_size (heap (run env ops s) self) = _memory_size (heap s self))
  /\ (forall (m : option oid) (referent : option Instance) (info : ModelInfo.t)
             (w : Wrapper),
         __init__ env m referent info = Ok w ->
         _memory_size w = ModelInfo.memory_size info
         /\ residency w
            = if in_cpu_offload (ModelInfo.device info) then Evicted else Resident).
Proof.
  split; [|split; [|split; [|split]]].
  - intros self s. now rewrite loaded_size_value.
  - intros ops self s Hlt.
    assert (Hm : marked (heap s self)).
    { apply (all_marked_run env ops initial_state); [|exact Hlt].
      intros j Hj. simpl in Hj. lia. }
    rewrite loaded_size_value. cbn [fst].
    unfold handle_residency, marked, residency in *.
    destruct (in_shadow_storage s self);
      destruct (_is_loaded_on_gpu (heap s self));
      destruct (on_fast_device (heap s self));
      repeat split; intros; try discriminate; try reflexivity;
      try (specialize (Hm eq_refl); discriminate).
  - intros model_key s i Hget He s'.
    destruct (remove_model_higgs_keeps model_key s i Hget He) as (Hh & _ & Hs).
    fold s' in Hh, Hs. split.
    + unfold handle_residency.
      now rewrite (in_shadow_storage_stored model_key i s' Hs).
    + intros j. rewrite !loaded_size_value. cbn [fst]. now rewrite Hh.
  - intros ops s self Hlt.
    destruct (run_grows env ops s) as (_ & _ & Hf).
    apply (Hf self Hlt).
  - intros m referent info w H.
    apply init_returns in H as (_ & _ & Hsize & _ & Hl & _).
    split; [exact Hsize|]. unfold residency. rewrite Hl.
    now destruct (in_cpu_offload (ModelInfo.device info)).
Qed.

Lemma loaded_size_accounting_witness :
  let s := run Sample.standalone
             [Sample.load Sample.higgs_engine "K" "higgs_audio" "cuda"]
             initial_state in
  let s' := snd (remove_model "K" s) in
  PyDict.get "K" (_model_cache s) = Some 0
  /\ ModelInfo.engine (model_info (heap s 0)) = "higgs_audio"
  /\ handle_residency s' 0 = Handle.Quarantined
  /\ forall j, fst (loaded_size j s') = fst (loaded_size j s).
Proof.
  intros s s'. split; [reflexivity|]. split; [reflexivity|].
  apply (proj1 (proj2 (proj2 (loaded_size_accounting Sample.standalone))));
    reflexivity.
Defined.

(** C4 does not hold of the code. A Higgs Audio wrapper is loaded on
    ['cuda'] with a footprint of 2 GiB and its key is removed: the wrapper
    is in shadow storage, so its residency is Quarantined and not Resident,
    and [loaded_size] still returns 2 GiB, not 0. *)
Lemma loaded_size_quarantined :
  let s := run Sample.standalone
             [Sample.load Sample.higgs_engine "K" "higgs_audio" "cuda";
              op_remove_model "K"]
             initial_state in
  next_wrapper s = 1
  /\ PyDict.get "K" (_model_cache s) = None
  /\ PyDict.get "_shadow_K" (_model_cache s) = Some 0
  /\ handle_residency s 0 = Handle.Quarantined
  /\ _memory_size (heap s 0) = 2147483648%Z
  /\ fst (loaded_size 0 s) = 2147483648%Z.
Proof. vm_compute. repeat split. Qed.

(** ** Loading onto any device marks the wrapper as loaded *)

(** [model_load] on a wrapper that is not marked as loaded, with a
    device name that is not empty and a live instance whose [to] does not
    raise for it, makes that name the current device and marks the wrapper
    as loaded, whatever the name is: [loaded_size] is then [_memory_size]
    also for the device ['cpu']. *)
Theorem model_load_marks_any_device (self : wid) (device : string) (s : State)
    (m : Instance) (to_raises : string -> bool) :
  _is_loaded_on_gpu (heap s self) = false ->
  String.eqb device "" = false ->
  _model_ref s (heap s self) = Some m ->
  inst_to m = Some to_raises ->
  to_raises device = false ->
  let s' := model_load self (Some device) s in
  current_device (heap s' self) = device
  /\ fst (loaded_size self s') = _memory_size (heap s self)
  /\ handle_residency s' self
     = if in_shadow_storage s self then Handle.Quarantined else Handle.Resident.
Proof.
  intros Hl Hd Hm Hto Hr s'. subst s'. unfold model_load.
  rewrite Hl, Hd, Hm, Hto, Hr.
  unfold handle_residency, in_shadow_storage, residency, loaded_size. simpl.
  rewrite Nat.eqb_refl. simpl. auto.
Qed.

Lemma model_load_marks_any_device_witness :
  let s := run Sample.standalone
             [Sample.load Sample.torch_module "k" "chatterbox" "cuda";
              op_call 0 (call_model_unload None true)]
             initial_state in
  let s' := model_load 0 (Some "cpu") s in
  current_device (heap s' 0) = "cpu"
  /\ fst (loaded_size 0 s') = _memory_size (heap s 0)
  /\ handle_residency s' 0
     = if in_shadow_storage s 0 then Handle.Quarantined else Handle.Resident.
Proof.
  intros s.
  apply (model_load_marks_any_device 0 "cpu" s Sample.torch_module
           (fun _ => false)); reflexivity.
Defined.
